(** * The risk engine of [radiation_map_light.py]

    A shallow embedding of the risk classification, the exposure estimate
    and the risk report of the radiation dashboard, with the properties of
    the specification stated over it.

    Python floats and numpy's [float64] are IEEE 754 binary64 numbers; they
    are modelled by Rocq's primitive floats, which are binary64 as well, so
    that literals such as [0.15] denote the same number here and in the
    source and every comparison and operation rounds the same way.
    Dictionaries keyed by strings are [gmap string _]; a subscript on a
    missing key raises [KeyError], which the model keeps as a result. *)

From Stdlib Require Import ZArith Floats Lia Bool Ascii String DecimalString.
From stdpp Require Import gmap strings list fin_maps sorting.

Set Warnings "-inexact-float".

(* ===================================================================== *)
(** ** Python values, exceptions and builtins *)
(* ===================================================================== *)

Module Py.

(** The one exception the modelled code can raise: a subscript with a key
    the dictionary does not hold. The module defines no exception class
    and has no [raise] statement. *)
Inductive exception : Type :=
| KeyError (key : string).

(** What a call does: it returns a value or raises. *)
Inductive result (A : Type) : Type :=
| Return (a : A)
| Raise (e : exception).
Arguments Return {A} a.
Arguments Raise {A} e.

(** Sequencing: the first exception raised ends the computation. *)
#[global] Instance result_bind : MBind result := λ A B k r,
  match r with
  | Return a => k a
  | Raise e => Raise e
  end.

(** [d[k]] *)
Definition getitem {V : Type} (d : gmap string V) (k : string) : result V :=
  match d !! k with
  | Some v => Return v
  | None => Raise (KeyError k)
  end.

(** [k in d] *)
Definition contains {V : Type} (k : string) (d : gmap string V) : bool :=
  bool_decide (is_Some (d !! k)).

(** The builtin [min(a, b)]: it keeps [a] unless [b < a]. *)
Definition min (a b : float) : float :=
  if (b <? a)%float then b else a.

(** [str(n)] for a non-negative integer. *)
Definition str_of_N (n : N) : string :=
  NilZero.string_of_uint (N.to_uint n).

Definition str_of_nat (n : nat) : string := str_of_N (N.of_nat n).

(** *** [format(x, '.<digits>f')]

    Python prints the decimal that is nearest to the exact binary value,
    ties to even, with [digits] decimals. *)

(** The nearest integer to [n / d], ties to even, for [0 <= n] and [0 < d]. *)
Definition div_half_even (n d : Z) : Z :=
  let q := (n / d)%Z in
  let r := (n mod d)%Z in
  match (2 * r ?= d)%Z with
  | Lt => q
  | Gt => (q + 1)%Z
  | Eq => if Z.even q then q else (q + 1)%Z
  end.

(** [m * 2^e * 10^digits] rounded to an integer. *)
Definition scaled (digits : nat) (m : positive) (e : Z) : Z :=
  let n := (Z.pos m * 10 ^ Z.of_nat digits)%Z in
  if (0 <=? e)%Z then (n * 2 ^ e)%Z else div_half_even n (2 ^ (- e)).

Fixpoint zeros (n : nat) : string :=
  match n with
  | O => EmptyString
  | S k => String "0"%char (zeros k)
  end.

(** The digits of [n] with a point before the last [digits] of them. *)
Definition place_point (digits : nat) (n : Z) : string :=
  let s := str_of_N (Z.to_N n) in
  let s := (zeros (S digits - String.length s) ++ s)%string in
  let k := (String.length s - digits)%nat in
  match digits with
  | O => s
  | _ => (substring 0 k s ++ "." ++ substring k digits s)%string
  end.

Definition sign_str (s : bool) : string := if s then "-"%string else EmptyString.

Definition format_f (digits : nat) (x : float) : string :=
  match Prim2SF x with
  | S754_nan => "nan"%string
  | S754_infinity s => (sign_str s ++ "inf")%string
  | S754_zero s => (sign_str s ++ place_point digits 0)%string
  | S754_finite s m e => (sign_str s ++ place_point digits (scaled digits m e))%string
  end.

(** [s.lower()] on ASCII letters. *)
Definition lower_ascii (c : ascii) : ascii :=
  let n := nat_of_ascii c in
  if ((65 <=? n) && (n <=? 90))%nat then ascii_of_nat (n + 32) else c.

Fixpoint lower (s : string) : string :=
  match s with
  | EmptyString => EmptyString
  | String c r => String (lower_ascii c) (lower r)
  end.

End Py.

Export Py (Return, Raise).

Local Open Scope string_scope.

(* ===================================================================== *)
(** ** [class RadiationData] *)
(* ===================================================================== *)

(** One measurement, [[longitude, latitude, radiation_μSv_h]], which is also
    one row of the data frame. *)
Record row : Type := Row {
  Longitude : float;
  Latitude : float;
  Radiation_uSv_h : float
}.

Record RadiationData : Type := {
  data_points : list row
}.

(** The measurements [__init__] stores. *)
Definition sample_data : RadiationData := {|
  data_points := [
    Row 90.35718591116404 23.837775061102857 0.4385;
    Row 90.35789165161599 23.83827828945288 0.00;
    Row 90.35706162131505 23.838201481146786 0.00;
    Row 90.35770007023059 23.837719225607806 0.00 ]
|}.

(** *** The column reductions of pandas

    [get_dataframe] asks pandas for the statistics of the radiation column.
    pandas is not part of the repository; its reductions are modelled here as
    they behave on a float64 column: missing values (NaN) are skipped, the
    mean is the sum of the remaining values divided by their number, and a
    reduction over no value at all is NaN. The sum is accumulated from left
    to right, which is what numpy does for a column of fewer than eight
    values (longer columns are added in blocks, with another rounding). The
    report reads [mean] and [max] and the statistics panel reads [min]; the
    entries [std] and [median] of the dictionary are read by no function
    modelled below and are left out. *)
Module Series.

Definition dropna (xs : list float) : list float :=
  List.filter (fun x => negb (is_nan x)) xs.

Definition sum (xs : list float) : float :=
  foldl PrimFloat.add 0%float xs.

Definition mean (xs : list float) : float :=
  match dropna xs with
  | [] => nan
  | v :: vs => (sum (v :: vs) / of_uint63 (Uint63.of_Z (Z.of_nat (length (v :: vs)))))%float
  end.

Definition max (xs : list float) : float :=
  match dropna xs with
  | [] => nan
  | v :: vs => foldl (fun m x => if (m <? x)%float then x else m) v vs
  end.

Definition min (xs : list float) : float :=
  match dropna xs with
  | [] => nan
  | v :: vs => foldl (fun m x => if (x <? m)%float then x else m) v vs
  end.

End Series.

Record statistics : Type := {
  mean : float;
  max : float;
  min : float
}.

(** [get_dataframe]: the rows and the statistics of the radiation column. *)
Definition get_dataframe (self : RadiationData) : list row * statistics :=
  let df := data_points self in
  let column := Radiation_uSv_h <$> df in
  (df, {| mean := Series.mean column;
          max := Series.max column;
          min := Series.min column |}).

(** [get_heatmap_data] *)
Definition get_heatmap_data (self : RadiationData) : list (list float) :=
  let '(df, _) := get_dataframe self in
  (fun r => [Latitude r; Longitude r; Radiation_uSv_h r]) <$> df.

(* ===================================================================== *)
(** ** [assess_risk_corrected] *)
(* ===================================================================== *)

(** The dictionary the function returns always has the same four keys. *)
Record risk : Type := {
  level : string;
  color : string;
  action : string;
  description : string
}.

Definition assess_risk_corrected (radiation_level : float) : risk :=
  if (radiation_level <? 0.15)%float then
    {| level := "SAFE";
       color := "green";
       action := "No restrictions needed";
       description := "Within natural background range" |}
  else if (radiation_level <? 0.3)%float then
    {| level := "LOW";
       color := "yellow";
       action := "Monitor regularly";
       description := "Slightly above natural background" |}
  else if (radiation_level <? 0.5)%float then
    {| level := "MODERATE";
       color := "orange";
       action := "Investigate possible sources";
       description := "Above normal levels" |}
  else if (radiation_level <? 1.0)%float then
    {| level := "HIGH";
       color := "red";
       action := "Restrict prolonged access";
       description := "Requires attention" |}
  else
    {| level := "SEVERE";
       color := "purple";
       action := "Immediate action required";
       description := "Emergency situation" |}.

(** A call of [assess_risk_corrected] as its caller sees it. The body has no
    [raise] and comparing floats raises nothing, so the call returns. *)
Definition classify (doseRate : float) : Py.result risk :=
  Return (assess_risk_corrected doseRate).

(* ===================================================================== *)
(** ** [calculate_exposure_safety] *)
(* ===================================================================== *)

Definition calculate_exposure_safety (radiation_level : float)
  : gmap string string :=
  if (radiation_level <=? 0)%float then
    {[ "status" := "No radiation detected" ]}
  else
    let PUBLIC_LIMIT := 1000%float in
    let WORKER_LIMIT := 20000%float in
    let hours_to_public_limit := (PUBLIC_LIMIT / radiation_level)%float in
    let hours_to_worker_limit := (WORKER_LIMIT / radiation_level)%float in
    let days_to_public_limit := (hours_to_public_limit / 8)%float in
    let days_to_worker_limit := (hours_to_worker_limit / 8)%float in
    let annual_dose_8hr := (radiation_level * 8 * 250)%float in
    list_to_map [
      ("public_safety",
       "Safe for " ++ Py.format_f 0 days_to_public_limit ++ " days (8hr/day)");
      ("worker_safety",
       "Safe for " ++ Py.format_f 0 days_to_worker_limit ++ " days (8hr/day)");
      ("annual_dose_estimate",
       Py.format_f 0 annual_dose_8hr ++ " μSv/year");
      ("percent_of_public_limit",
       Py.format_f 1 ((annual_dose_8hr / PUBLIC_LIMIT) * 100)%float ++ "%");
      ("percent_of_worker_limit",
       Py.format_f 1 ((annual_dose_8hr / WORKER_LIMIT) * 100)%float ++ "%")
    ].

(** A call of [calculate_exposure_safety] as its caller sees it: float
    division by zero is guarded by the first test and float arithmetic
    overflows to infinity without raising. *)
Definition estimate (doseRate : float) : Py.result (gmap string string) :=
  Return (calculate_exposure_safety doseRate).

(* ===================================================================== *)
(** ** [class RadiationMapGenerator]: the parts that compute *)
(* ===================================================================== *)

(** The counters both tallies start from. *)
Definition risk_counts_init : gmap string nat :=
  list_to_map [("SAFE", 0); ("LOW", 0); ("MODERATE", 0); ("HIGH", 0); ("SEVERE", 0)]%nat.

(** [risk_counts[key] += 1] *)
Definition increment (risk_counts : gmap string nat) (key : string)
  : Py.result (gmap string nat) :=
  n ← Py.getitem risk_counts key;
  Return (<[key := (n + 1)%nat]> risk_counts).

Definition zone_sizes : gmap string Z :=
  list_to_map [("SAFE", 10); ("LOW", 20); ("MODERATE", 30); ("HIGH", 40); ("SEVERE", 50)]%Z.

(** What [folium.Circle] is given for one risk zone. *)
Record circle : Type := {
  circle_location : list float;
  radius : Z;
  circle_color : string;
  popup : string
}.

(** The body of the loop of [add_risk_zones]. *)
Definition risk_zone (r : row) : Py.result circle :=
  let risk := assess_risk_corrected (Radiation_uSv_h r) in
  radius ← Py.getitem zone_sizes (level risk);
  Return {| circle_location := [Latitude r; Longitude r];
            radius := radius;
            circle_color := color risk;
            popup := "<b>" ++ level risk ++ " Risk Zone</b><br>" ++ description risk |}.

Fixpoint risk_zones (rows : list row) : Py.result (list circle) :=
  match rows with
  | [] => Return []
  | r :: rest =>
      c ← risk_zone r;
      cs ← risk_zones rest;
      Return (c :: cs)
  end.

(** [add_risk_zones]: the circles added to the map, in row order. *)
Definition add_risk_zones (radiation_data : RadiationData) : Py.result (list circle) :=
  let '(df, _) := get_dataframe radiation_data in
  risk_zones df.

(** The tally of [add_statistics_panel]. *)
Fixpoint count_risk_levels (rows : list row) (risk_counts : gmap string nat)
  : Py.result (gmap string nat) :=
  match rows with
  | [] => Return risk_counts
  | r :: rest =>
      let risk := assess_risk_corrected (Radiation_uSv_h r) in
      risk_counts ← increment risk_counts (level risk);
      count_risk_levels rest risk_counts
  end.

Definition add_statistics_panel (radiation_data : RadiationData)
  : Py.result (gmap string nat) :=
  let '(df, _) := get_dataframe radiation_data in
  count_risk_levels df risk_counts_init.

(* ===================================================================== *)
(** ** [generate_risk_report] *)
(* ===================================================================== *)

Record hotspot : Type := {
  point : nat;
  radiation : float;
  hotspot_risk : string
}.

(** The loop over [df.iterrows()]: [idx] is the label of the first row of
    [rows]; the counters and the hotspot list are threaded through. *)
Fixpoint scan_rows (idx : nat) (rows : list row)
    (risk_counts : gmap string nat) (hotspots : list hotspot)
  : Py.result (gmap string nat * list hotspot) :=
  match rows with
  | [] => Return (risk_counts, hotspots)
  | r :: rest =>
      let risk := assess_risk_corrected (Radiation_uSv_h r) in
      risk_counts ← increment risk_counts (level risk);
      let hotspots :=
        if bool_decide (level risk ∈ ["MODERATE"; "HIGH"; "SEVERE"]) then
          (hotspots ++ [ {| point := idx + 1;
                            radiation := Radiation_uSv_h r;
                            hotspot_risk := level risk |} ])%list
        else hotspots in
      scan_rows (S idx) rest risk_counts hotspots
  end.

(** [min(100, (max_reading * 70) + (mean_reading * 30))]. The integer [100]
    that [min] returns when the sum is not below it is kept as the float
    [100.0]: it compares and prints the same. *)
Definition compute_risk_index (stats : statistics) : float :=
  let max_reading := max stats in
  let mean_reading := mean stats in
  Py.min 100 ((max_reading * 70) + (mean_reading * 30))%float.

(** The chain of tests on [risk_index]: the overall level and its
    recommendations. *)
Definition overall_assessment (risk_index : float) : string * list string :=
  if (risk_index <? 30)%float then
    ("SAFE",
     [ "Continue routine monitoring";
       "Maintain baseline records";
       "No restrictions needed" ])
  else if (risk_index <? 50)%float then
    ("LOW",
     [ "Monitor monthly";
       "Investigate minor elevations";
       "Inform local authorities" ])
  else if (risk_index <? 70)%float then
    ("MODERATE",
     [ "Increase monitoring to weekly";
       "Restrict prolonged access to elevated areas";
       "Investigate potential sources" ])
  else if (risk_index <? 90)%float then
    ("HIGH",
     [ "Restrict area access";
       "Notify radiation safety officer";
       "Begin source investigation";
       "Implement protective measures" ])
  else
    ("SEVERE",
     [ "IMMEDIATE AREA RESTRICTION";
       "Contact nuclear regulatory body";
       "Deploy emergency response";
       "Evacuate non-essential personnel" ]).

(** Everything the function has computed when it starts to write the text. *)
Record assessment : Type := {
  n_points : nat;
  stats_of : statistics;
  risk_counts : gmap string nat;
  hotspots : list hotspot;
  risk_index : float;
  overall_risk : string;
  recommendations : list string
}.

(** Lines 455 to 514: the data frame, the loop, the index and the level. *)
Definition assess_data (radiation_data : RadiationData) : Py.result assessment :=
  let '(df, stats) := get_dataframe radiation_data in
  '(risk_counts, hotspots) ← scan_rows 0 df risk_counts_init [];
  let risk_index := compute_risk_index stats in
  let '(overall_risk, recommendations) := overall_assessment risk_index in
  Return {| n_points := length df;
            stats_of := stats;
            risk_counts := risk_counts;
            hotspots := hotspots;
            risk_index := risk_index;
            overall_risk := overall_risk;
            recommendations := recommendations |}.

(** *** The text of the report *)

Definition nl : string := String (ascii_of_nat 10) EmptyString.

(** Each line followed by a line break. *)
Definition lines (ls : list string) : string :=
  foldr (fun l acc => l ++ nl ++ acc) EmptyString ls.

Fixpoint repeat_str (n : nat) (s : string) : string :=
  match n with
  | O => EmptyString
  | S k => s ++ repeat_str k s
  end.

Definition rule : string := repeat_str 70 "=".

Definition hotspot_lines (h : hotspot) : Py.result string :=
  let exposure := calculate_exposure_safety (radiation h) in
  public_safety ← Py.getitem exposure "public_safety";
  worker_safety ← Py.getitem exposure "worker_safety";
  Return (lines [
    "• Point " ++ Py.str_of_nat (point h) ++ ": " ++ Py.format_f 3 (radiation h)
      ++ " μSv/h (" ++ hotspot_risk h ++ " Risk)";
    "   - Public Safety: " ++ public_safety;
    "   - Worker Safety: " ++ worker_safety ]).

Fixpoint hotspots_text (hs : list hotspot) : Py.result string :=
  match hs with
  | [] => Return EmptyString
  | h :: rest =>
      t ← hotspot_lines h;
      ts ← hotspots_text rest;
      Return (t ++ ts)
  end.

(** [for i, rec in enumerate(recommendations, 1)] *)
Fixpoint recommendations_text (i : nat) (recs : list string) : string :=
  match recs with
  | [] => EmptyString
  | rec :: rest =>
      Py.str_of_nat i ++ ". " ++ rec ++ nl ++ recommendations_text (S i) rest
  end.

(** Lines 516 to 584. *)
Definition write_report (a : assessment) : Py.result string :=
  let stats := stats_of a in
  let max_reading := max stats in
  safe ← Py.getitem (risk_counts a) "SAFE";
  low ← Py.getitem (risk_counts a) "LOW";
  moderate ← Py.getitem (risk_counts a) "MODERATE";
  high ← Py.getitem (risk_counts a) "HIGH";
  severe ← Py.getitem (risk_counts a) "SEVERE";
  let report := nl ++ lines [
    rule;
    "RADIATION RISK ASSESSMENT REPORT";
    "Environmental Monitoring System - Isotopper B15 Project";
    rule;
    EmptyString;
    "SURVEY SUMMARY:";
    "---------------";
    "• Data Points Collected: " ++ Py.str_of_nat (n_points a);
    "• Maximum Radiation: " ++ Py.format_f 3 (max stats) ++ " μSv/h";
    "• Average Radiation: " ++ Py.format_f 3 (mean stats) ++ " μSv/h";
    "• Natural Background Range: 0.10 - 0.15 μSv/h";
    EmptyString;
    "RISK ASSESSMENT:";
    "----------------";
    "• Overall Risk Level: " ++ overall_risk a
      ++ " (Index: " ++ Py.format_f 1 (risk_index a) ++ "/100)";
    "• Risk Distribution:";
    "   - Safe: " ++ Py.str_of_nat safe ++ " points";
    "   - Low: " ++ Py.str_of_nat low ++ " points";
    "   - Moderate: " ++ Py.str_of_nat moderate ++ " points";
    "   - High: " ++ Py.str_of_nat high ++ " points";
    "   - Severe: " ++ Py.str_of_nat severe ++ " points";
    EmptyString;
    "SAFETY ANALYSIS:";
    "----------------";
    "• Public Annual Limit: 1000 μSv (1 mSv)";
    "• Worker Annual Limit: 20000 μSv (20 mSv)";
    "• Highest Reading Annual Dose (8hr/day, 250 days): "
      ++ Py.format_f 0 (max_reading * 8 * 250)%float ++ " μSv";
    "• % of Public Limit: "
      ++ Py.format_f 1 ((max_reading * 8 * 250 / 1000) * 100)%float ++ "%";
    "• % of Worker Limit: "
      ++ Py.format_f 1 ((max_reading * 8 * 250 / 20000) * 100)%float ++ "%";
    EmptyString;
    "HOTSPOTS IDENTIFIED:";
    "--------------------" ] in
  found ← match hotspots a with
          | [] => Return (lines [
              "• No significant hotspots detected (all readings within safe limits)" ])
          | _ :: _ => hotspots_text (hotspots a)
          end;
  let report := report ++ found in
  let report := report ++ nl ++ lines [
    "RECOMMENDED ACTIONS:";
    "-------------------" ] in
  let report := report ++ recommendations_text 1 (recommendations a) in
  let report := report ++ nl ++ lines [
    "CONCLUSION:";
    "-----------";
    "Based on IAEA/ICRP international standards and "
      ++ Py.str_of_nat (n_points a) ++ " measurement points,";
    "the surveyed area presents " ++ Py.lower (overall_risk a) ++ " risk level.";
    (if bool_decide (overall_risk a ∈ ["SAFE"; "LOW"]) then
       "All readings are within acceptable limits for both public and occupational exposure."
     else
       "Some areas require attention but do not pose immediate danger with proper controls.");
    EmptyString;
    rule;
    "Report Generated:  Radiation Monitoring System";
    "Reference: IAEA GSG-8, ICRP Publication 103";
    rule ] in
  Return report.

Definition generate_risk_report (radiation_data : RadiationData) : Py.result string :=
  a ← assess_data radiation_data;
  write_report a.

(* ===================================================================== *)
(** ** [add_measurement_points] *)
(* ===================================================================== *)


(** The safety lines of a popup: the status when the exposure dictionary has
    one, the two safety texts otherwise. *)
Definition safety_info_html (radiation : float) : Py.result string :=
  let safety := calculate_exposure_safety radiation in
  if Py.contains "status" safety then
    status ← Py.getitem safety "status";
    Return ("<p><b>Safety Info:</b> " ++ status ++ "</p>")
  else
    public_safety ← Py.getitem safety "public_safety";
    worker_safety ← Py.getitem safety "worker_safety";
    Return (nl
      ++ "                <p><b>Public Safety:</b> " ++ public_safety ++ "</p>" ++ nl
      ++ "                <p><b>Worker Safety:</b> " ++ worker_safety ++ "</p>" ++ nl
      ++ "                ").






(* ===================================================================== *)
(** ** The specification's reference definitions *)
(* ===================================================================== *)

(** These definitions follow the words of the specification (sections 4.1
    to 4.3), not the source; the theorems below compare the source with
    them. *)
Module Spec.

(** A range of dose rates in the table of section 4.1. *)
Inductive range : Type :=
| Below (hi : float)                (* [< hi] *)
| Between (lo hi : float)           (* [[lo, hi)] *)
| AtLeast (lo : float).             (* [>= lo] *)

Definition in_range (r : range) (x : float) : bool :=
  match r with
  | Below hi => (x <? hi)%float
  | Between lo hi => (lo <=? x)%float && (x <? hi)%float
  | AtLeast lo => (lo <=? x)%float
  end.

(** The table of section 4.1: range, level, action. *)
Definition table_4_1 : list (range * string * string) := [
  (Below 0.15, "SAFE", "No restrictions needed");
  (Between 0.15 0.3, "LOW", "Monitor regularly");
  (Between 0.3 0.5, "MODERATE", "Investigate possible sources");
  (Between 0.5 1.0, "HIGH", "Restrict prolonged access");
  (AtLeast 1.0, "SEVERE", "Immediate action required") ].

(** The ordinal rank of a level, [SAFE < LOW < MODERATE < HIGH < SEVERE]. *)
Definition levels : list string := ["SAFE"; "LOW"; "MODERATE"; "HIGH"; "SEVERE"].

Fixpoint index_of (s : string) (l : list string) : option nat :=
  match l with
  | [] => None
  | x :: r => if decide (s = x) then Some O else S <$> index_of s r
  end.

Definition rank (level : string) : option nat := index_of level levels.

(** Section 4.2, for a positive dose rate. *)
Record ExposureEstimate : Type := {
  daysToPublicLimit : float;
  daysToWorkerLimit : float;
  annualDose8hr : float;
  percentOfPublicLimit : float;
  percentOfWorkerLimit : float
}.

Definition PUBLIC_LIMIT : float := 1000.
Definition WORKER_LIMIT : float := 20000.

Definition exposure (doseRate : float) : ExposureEstimate :=
  let hoursToPublicLimit := (PUBLIC_LIMIT / doseRate)%float in
  let hoursToWorkerLimit := (WORKER_LIMIT / doseRate)%float in
  let annual := (doseRate * 8 * 250)%float in
  {| daysToPublicLimit := (hoursToPublicLimit / 8)%float;
     daysToWorkerLimit := (hoursToWorkerLimit / 8)%float;
     annualDose8hr := annual;
     percentOfPublicLimit := (annual / PUBLIC_LIMIT * 100)%float;
     percentOfWorkerLimit := (annual / WORKER_LIMIT * 100)%float |}.

(** Section 4.3: the thresholds on the aggregate index. *)
Definition table_4_3 : list (range * string) := [
  (Below 30, "SAFE");
  (Between 30 50, "LOW");
  (Between 50 70, "MODERATE");
  (Between 70 90, "HIGH");
  (AtLeast 90, "SEVERE") ].

End Spec.

(** The five dictionaries [assess_risk_corrected] can return. *)
Definition risk_SAFE : risk :=
  {| level := "SAFE"; color := "green";
     action := "No restrictions needed";
     description := "Within natural background range" |}.
Definition risk_LOW : risk :=
  {| level := "LOW"; color := "yellow";
     action := "Monitor regularly";
     description := "Slightly above natural background" |}.
Definition risk_MODERATE : risk :=
  {| level := "MODERATE"; color := "orange";
     action := "Investigate possible sources";
     description := "Above normal levels" |}.
Definition risk_HIGH : risk :=
  {| level := "HIGH"; color := "red";
     action := "Restrict prolonged access";
     description := "Requires attention" |}.
Definition risk_SEVERE : risk :=
  {| level := "SEVERE"; color := "purple";
     action := "Immediate action required";
     description := "Emergency situation" |}.

(** The counters hold one count for each of the five levels and for nothing
    else, and the five counts add up to [total]. *)
Definition holds_counts (risk_counts : gmap string nat) (total : nat) : Prop :=
  ∃ safe low moderate high severe : nat,
    risk_counts !! "SAFE" = Some safe
    ∧ risk_counts !! "LOW" = Some low
    ∧ risk_counts !! "MODERATE" = Some moderate
    ∧ risk_counts !! "HIGH" = Some high
    ∧ risk_counts !! "SEVERE" = Some severe
    ∧ dom risk_counts = list_to_set Spec.levels
    ∧ (safe + low + moderate + high + severe = total)%nat.

(** How many rows are classified at the level [l]. *)
Definition count_level (l : string) (rows : list row) : nat :=
  length (List.filter
            (λ r, bool_decide (level (assess_risk_corrected (Radiation_uSv_h r)) = l))
            rows).

(** The hotspots among [rows], whose first row has the label [idx]: the
    list the loop of the report appends to the one it was given. *)
Fixpoint hotspots_from (idx : nat) (rows : list row) : list hotspot :=
  match rows with
  | [] => []
  | r :: rest =>
      let risk := assess_risk_corrected (Radiation_uSv_h r) in
      (if bool_decide (level risk ∈ ["MODERATE"; "HIGH"; "SEVERE"]) then
         [ {| point := idx + 1;
              radiation := Radiation_uSv_h r;
              hotspot_risk := level risk |} ]
       else []) ++ hotspots_from (S idx) rest
  end%list.

(** The counters as a function of the rows. *)
Definition distribution (rows : list row) : gmap string nat :=
  list_to_map ((λ l, (l, count_level l rows)) <$> Spec.levels).

(** A hotspot whose exposure dictionary has the safety entries: its dose
    rate is not at or below zero. *)
Definition reportable (h : hotspot) : Prop :=
  (radiation h <=? 0)%float = false.

(** The sign of a float is not negative: a zero of either sign, a positive
    number or plus infinity. This is what [0 <= x] tests. *)
Definition SFnonneg (x : spec_float) : bool :=
  match x with
  | S754_zero _ => true
  | S754_infinity s => negb s
  | S754_nan => false
  | S754_finite s _ _ => negb s
  end.

(** The dataset of the end-to-end scenario of the specification: the
    measurements of [sample_data] with the coordinates cut to three
    decimals. *)
Definition scenario_data : RadiationData := {|
  data_points := [
    Row 90.357 23.838 0.4385;
    Row 90.358 23.838 0.0;
    Row 90.357 23.838 0.0;
    Row 90.358 23.838 0.0 ]
|}.

(** A dataset with no sample. *)
Definition empty_data : RadiationData := {| data_points := [] |}.

(** A dataset with one negative reading. *)
Definition negative_data : RadiationData := {|
  data_points := [ Row 90.357 23.838 (-1) ]
|}.

(** The sign bit of a float is clear: plus zero, a positive number or plus
    infinity. *)
Definition SFunsigned (x : spec_float) : bool :=
  match x with
  | S754_zero s => negb s
  | S754_infinity s => negb s
  | S754_nan => false
  | S754_finite s _ _ => negb s
  end.

(** A float that is a number. *)
Definition defined (x : float) : Prop := is_nan x = false.

(* ===================================================================== *)
(** ** Facts about binary64 comparisons and signs *)
(* ===================================================================== *)

Ltac fold_pos_compare :=
  repeat match goal with
  | |- context [Pos.compare_cont Eq ?a ?b] =>
      change (Pos.compare_cont Eq a b) with (Pos.compare a b)
  end.

Ltac compare_cases :=
  repeat match goal with
  | |- context [Z.compare ?a ?b] => destruct (Z.compare_spec a b); subst
  | |- context [Pos.compare ?a ?b] => destruct (Pos.compare_spec a b); subst
  end.

(** Three floats, every constructor and sign, then the orders on exponents
    and mantissas. *)
Ltac sf_order x y z :=
  unfold SFltb, SFleb;
  destruct x as [[]|[]| |[] ?mx ?ex], y as [[]|[]| |[] ?my ?ey],
           z as [[]|[]| |[] ?mz ?ez];
  simpl; try congruence; try reflexivity;
  fold_pos_compare; compare_cases; simpl; try congruence; try lia.

Lemma SFcompare_refl x : x ≠ S754_nan → SFcompare x x = Some Eq.
Proof.
  destruct x as [[]|[]| |[] m e]; simpl; try congruence; intros _;
    fold_pos_compare; rewrite Z.compare_refl, Pos.compare_refl; reflexivity.
Qed.

Lemma SFcompare_swap x y c :
  SFcompare x y = Some c → SFcompare y x = Some (CompOpp c).
Proof.
  destruct x as [[]|[]| |[] mx ex], y as [[]|[]| |[] my ey]; simpl;
    intros H; inversion H; clear H; subst; try reflexivity; f_equal;
    fold_pos_compare;
    rewrite (Z.compare_antisym ex ey), (Pos.compare_antisym mx my);
    destruct (ex ?= ey)%Z, (mx ?= my)%positive; reflexivity.
Qed.

Lemma SFcompare_defined x y :
  x ≠ S754_nan → y ≠ S754_nan → ∃ c, SFcompare x y = Some c.
Proof.
  destruct x as [[]|[]| |[] mx ex], y as [[]|[]| |[] my ey]; simpl;
    try congruence; eauto.
Qed.

Lemma SFltb_trans x y z : SFltb x y = true → SFltb y z = true → SFltb x z = true.
Proof. sf_order x y z. Qed.

Lemma SFleb_ltb_trans x y z : SFleb x y = true → SFltb y z = true → SFltb x z = true.
Proof. sf_order x y z. Qed.

Lemma SFltb_leb_trans x y z : SFltb x y = true → SFleb y z = true → SFltb x z = true.
Proof. sf_order x y z. Qed.

Lemma SFleb_trans x y z : SFleb x y = true → SFleb y z = true → SFleb x z = true.
Proof. sf_order x y z. Qed.

Lemma SFleb_not_ltb x y : SFleb x y = true → SFltb y x = false.
Proof.
  unfold SFleb, SFltb. destruct (SFcompare x y) as [c|] eqn:E; [|congruence].
  rewrite (SFcompare_swap _ _ _ E). destruct c; simpl; congruence.
Qed.

Lemma SFnot_ltb_leb x y :
  x ≠ S754_nan → y ≠ S754_nan → SFltb x y = false → SFleb y x = true.
Proof.
  intros Hx Hy. destruct (SFcompare_defined x y Hx Hy) as [c E].
  unfold SFleb, SFltb. rewrite E, (SFcompare_swap _ _ _ E).
  destruct c; simpl; congruence.
Qed.

Lemma SFltb_leb x y : SFltb x y = true → SFleb x y = true.
Proof. unfold SFleb, SFltb. destruct (SFcompare x y) as [[]|]; congruence. Qed.

Section FloatOrder.

Local Open Scope float_scope.

Lemma is_nan_spec (x : float) : is_nan x = true ↔ Prim2SF x = S754_nan.
Proof.
  unfold is_nan. rewrite FloatAxioms.eqb_spec. unfold SFeqb. split.
  - destruct (Prim2SF x) eqn:E; try reflexivity;
      rewrite SFcompare_refl; simpl; congruence.
  - intros ->. reflexivity.
Qed.

Lemma defined_spec (x : float) : defined x ↔ Prim2SF x ≠ S754_nan.
Proof.
  unfold defined. rewrite <- is_nan_spec. destruct (is_nan x); split; congruence.
Qed.

Lemma ltb_trans (x y z : float) : (x <? y) = true → (y <? z) = true → (x <? z) = true.
Proof. rewrite !FloatAxioms.ltb_spec. apply SFltb_trans. Qed.

Lemma leb_ltb_trans (x y z : float) : (x <=? y) = true → (y <? z) = true → (x <? z) = true.
Proof. rewrite FloatAxioms.leb_spec, !FloatAxioms.ltb_spec. apply SFleb_ltb_trans. Qed.

Lemma ltb_leb_trans (x y z : float) : (x <? y) = true → (y <=? z) = true → (x <? z) = true.
Proof. rewrite FloatAxioms.leb_spec, !FloatAxioms.ltb_spec. apply SFltb_leb_trans. Qed.

Lemma leb_trans (x y z : float) : (x <=? y) = true → (y <=? z) = true → (x <=? z) = true.
Proof. rewrite !FloatAxioms.leb_spec. apply SFleb_trans. Qed.

Lemma leb_not_ltb (x y : float) : (x <=? y) = true → (y <? x) = false.
Proof. rewrite FloatAxioms.leb_spec, FloatAxioms.ltb_spec. apply SFleb_not_ltb. Qed.

Lemma ltb_leb (x y : float) : (x <? y) = true → (x <=? y) = true.
Proof. rewrite FloatAxioms.leb_spec, FloatAxioms.ltb_spec. apply SFltb_leb. Qed.

Lemma not_ltb_leb (x y : float) :
  defined x → defined y → (x <? y) = false → (y <=? x) = true.
Proof.
  intros Hx%defined_spec Hy%defined_spec. rewrite FloatAxioms.leb_spec, FloatAxioms.ltb_spec.
  by apply SFnot_ltb_leb.
Qed.

Lemma leb_defined_l (x y : float) : (x <=? y) = true → defined x.
Proof.
  rewrite FloatAxioms.leb_spec, defined_spec. intros H E. rewrite E in H. discriminate.
Qed.

Lemma leb_defined_r (x y : float) : (x <=? y) = true → defined y.
Proof.
  rewrite FloatAxioms.leb_spec, defined_spec. intros H E. rewrite E in H.
  destruct (Prim2SF x) as [[]|[]| |[] m e]; discriminate.
Qed.

Lemma ltb_defined_l (x y : float) : (x <? y) = true → defined x.
Proof. intros H. eapply leb_defined_l, ltb_leb, H. Qed.

Lemma ltb_defined_r (x y : float) : (x <? y) = true → defined y.
Proof. intros H. eapply leb_defined_r, ltb_leb, H. Qed.

Lemma nan_ltb_l (x y : float) : is_nan x = true → (x <? y) = false.
Proof. rewrite is_nan_spec, FloatAxioms.ltb_spec. intros ->. reflexivity. Qed.

Lemma nan_leb_l (x y : float) : is_nan x = true → (x <=? y) = false.
Proof. rewrite is_nan_spec, FloatAxioms.leb_spec. intros ->. reflexivity. Qed.

Lemma nan_ltb_r (x y : float) : is_nan y = true → (x <? y) = false.
Proof.
  rewrite is_nan_spec, FloatAxioms.ltb_spec. intros ->.
  destruct (Prim2SF x) as [[]|[]| |[] m e]; reflexivity.
Qed.

End FloatOrder.

(** *** Rounding keeps the sign

    The product and the sum of floats that are not negative are not
    negative: rounding a non-negative mantissa gives zero, a positive number
    or plus infinity. *)

Lemma shr_1_nonneg (mrs : shr_record) :
  (0 <= shr_m mrs)%Z → (0 <= shr_m (shr_1 mrs))%Z.
Proof. destruct mrs as [[|[p|p|]|p] r s]; simpl; lia. Qed.

Lemma iter_shr_1_nonneg (p : positive) :
  ∀ mrs, (0 <= shr_m mrs)%Z → (0 <= shr_m (SpecFloat.iter_pos shr_1 p mrs))%Z.
Proof.
  induction p as [p IH|p IH|]; intros mrs H; simpl.
  - apply IH, IH, shr_1_nonneg, H.
  - apply IH, IH, H.
  - apply shr_1_nonneg, H.
Qed.

Lemma shr_nonneg (mrs : shr_record) (e n : Z) :
  (0 <= shr_m mrs)%Z → (0 <= shr_m (shr mrs e n).1)%Z.
Proof.
  intros H. destruct n as [|p|p]; simpl; [exact H| |exact H].
  by apply iter_shr_1_nonneg.
Qed.

Lemma shr_fexp_nonneg (m e : Z) (l : location) :
  (0 <= m)%Z → (0 <= shr_m (shr_fexp prec emax m e l).1)%Z.
Proof.
  intros H. unfold shr_fexp. apply shr_nonneg.
  destruct l as [|[]]; exact H.
Qed.

Lemma round_nearest_even_nonneg (m : Z) (l : location) :
  (0 <= m)%Z → (0 <= round_nearest_even m l)%Z.
Proof.
  intros H. destruct l as [|[]]; simpl; try lia. destruct (Z.even m); lia.
Qed.

Lemma SFunsigned_nonneg (x : spec_float) : SFunsigned x = true → SFnonneg x = true.
Proof. by destruct x as [[]|[]| |[] m e]. Qed.

Lemma binary_round_aux_unsigned (m e : Z) (l : location) :
  (0 <= m)%Z → SFunsigned (binary_round_aux prec emax false m e l) = true.
Proof.
  intros H. unfold binary_round_aux.
  pose proof (shr_fexp_nonneg m e l H) as H1.
  destruct (shr_fexp prec emax m e l) as [mrs' e']. simpl in H1.
  pose proof (shr_fexp_nonneg _ e' loc_Exact
                (round_nearest_even_nonneg _ (loc_of_shr_record mrs') H1)) as H2.
  destruct (shr_fexp prec emax _ e' loc_Exact) as [mrs'' e'']. simpl in H2.
  destruct (shr_m mrs'') as [|p|p]; [reflexivity| |lia].
  by destruct (e'' <=? emax - prec)%Z.
Qed.

Lemma binary_round_aux_nonneg (m e : Z) (l : location) :
  (0 <= m)%Z → SFnonneg (binary_round_aux prec emax false m e l) = true.
Proof. intros H. by apply SFunsigned_nonneg, binary_round_aux_unsigned. Qed.

Lemma binary_round_unsigned (m : positive) (e : Z) :
  SFunsigned (binary_round prec emax false m e) = true.
Proof.
  unfold binary_round. destruct (shl_align _ _ _) as [mz ez].
  by apply binary_round_aux_unsigned.
Qed.

Lemma binary_round_nonneg (m : positive) (e : Z) :
  SFnonneg (binary_round prec emax false m e) = true.
Proof. apply SFunsigned_nonneg, binary_round_unsigned. Qed.

Lemma SFmul_nonneg (x y : spec_float) (m : positive) (e : Z) :
  SFnonneg x = true → y = S754_finite false m e →
  SFnonneg (SF64mul x y) = true.
Proof.
  intros Hx ->. destruct x as [s|[]| |[] mx ex]; try discriminate Hx;
    try reflexivity.
  unfold SF64mul, SFmul. simpl xorb. by apply binary_round_aux_nonneg.
Qed.

Lemma SFadd_nonneg (x y : spec_float) :
  SFnonneg x = true → SFnonneg y = true → SFnonneg (SF64add x y) = true.
Proof.
  intros Hx Hy.
  destruct x as [sx|[]| |[] mx ex]; try discriminate Hx;
    destruct y as [sy|[]| |[] my ey]; try discriminate Hy; try reflexivity.
  - by destruct sx, sy.
  - unfold SF64add, SFadd. simpl cond_Zopp. simpl Z.add.
    apply binary_round_nonneg.
Qed.

Lemma SFleb_zero (x : spec_float) : SFleb (S754_zero false) x = SFnonneg x.
Proof. by destruct x as [[]|[]| |[] m e]. Qed.

Lemma nonneg_spec (x : float) : (0 <=? x)%float = SFnonneg (Prim2SF x).
Proof. rewrite FloatAxioms.leb_spec. apply SFleb_zero. Qed.

(** [x * c] for a dose statistic [x] that is not negative and a positive
    constant [c]. *)
Lemma mul_nonneg (x c : float) (m : positive) (e : Z) :
  (0 <=? x)%float = true → Prim2SF c = S754_finite false m e →
  (0 <=? x * c)%float = true.
Proof.
  rewrite !nonneg_spec, mul_spec. intros Hx Hc. by eapply SFmul_nonneg.
Qed.

Lemma add_nonneg (x y : float) :
  (0 <=? x)%float = true → (0 <=? y)%float = true → (0 <=? x + y)%float = true.
Proof. rewrite !nonneg_spec, add_spec. apply SFadd_nonneg. Qed.

Lemma SFdiv_nonneg (x y : spec_float) :
  SFnonneg x = true → SFunsigned y = true →
  SF64div x y = S754_nan ∨ SFnonneg (SF64div x y) = true.
Proof.
  intros Hx Hy.
  destruct x as [sx|[]| |[] mx ex]; try discriminate Hx;
    destruct y as [sy|[]| |[] my ey]; try discriminate Hy;
    try (by left); try (by right).
  right. unfold SF64div, SFdiv, SFdiv_core_binary. simpl xorb.
  set (s := (ex - ey - _)%Z).
  set (m' := match s with Z.pos _ => Z.shiftl (Z.pos mx) s | 0%Z => Z.pos mx
             | Z.neg _ => 0%Z end).
  assert (0 <= m')%Z as Hm'.
  { unfold m'. destruct s; [lia| |lia]. by apply Z.shiftl_nonneg. }
  pose proof (Z.div_pos m' (Z.pos my) Hm' eq_refl) as Hq.
  unfold Z.div in Hq. destruct (Z.div_eucl m' (Z.pos my)) as [q r].
  by apply binary_round_aux_nonneg.
Qed.

Lemma of_uint63_unsigned (n : PrimInt63.int) :
  SFunsigned (Prim2SF (of_uint63 n)) = true.
Proof.
  rewrite of_uint63_spec.
  pose proof (Uint63.to_Z_bounded n) as [Hn _].
  destruct (Uint63.to_Z n) as [|p|p]; [reflexivity| |lia].
  apply binary_round_unsigned.
Qed.

(** A sum of dose rates divided by a count. *)
Lemma div_count_nonneg (x : float) (n : PrimInt63.int) :
  (0 <=? x)%float = true →
  is_nan (x / of_uint63 n) = true ∨ (0 <=? x / of_uint63 n)%float = true.
Proof.
  rewrite !nonneg_spec, is_nan_spec, div_spec. intros Hx.
  apply SFdiv_nonneg; [exact Hx|apply of_uint63_unsigned].
Qed.

Lemma nan_mul_l (x y : float) : is_nan x = true → is_nan (x * y) = true.
Proof. rewrite !is_nan_spec, mul_spec. by intros ->. Qed.

Lemma nan_add_l (x y : float) : is_nan x = true → is_nan (x + y) = true.
Proof. rewrite !is_nan_spec, add_spec. by intros ->. Qed.

Lemma nan_add_r (x y : float) : is_nan y = true → is_nan (x + y) = true.
Proof.
  rewrite !is_nan_spec, add_spec. intros ->.
  by destruct (Prim2SF x) as [[]|[]| |[] m e].
Qed.

(* ===================================================================== *)
(** ** The per-point classification *)
(* ===================================================================== *)

Section Classification.

Local Open Scope float_scope.

(** A value at or above [a] is not below any [b] that is at most [a]. *)
Lemma above_not_below (a b x : float) :
  (a <=? x) = true → (b <=? a) = true → (x <? b) = false.
Proof. intros Hax Hba. apply leb_not_ltb. by apply leb_trans with a. Qed.

(** The chain of four tests, read as the five cases it separates. *)
Lemma assess_risk_corrected_cases (x : float) :
  ((x <? 0.15) = true ∧ assess_risk_corrected x = risk_SAFE)
  ∨ ((x <? 0.15) = false ∧ (x <? 0.3) = true ∧ assess_risk_corrected x = risk_LOW)
  ∨ ((x <? 0.3) = false ∧ (x <? 0.5) = true ∧ assess_risk_corrected x = risk_MODERATE)
  ∨ ((x <? 0.5) = false ∧ (x <? 1.0) = true ∧ assess_risk_corrected x = risk_HIGH)
  ∨ ((x <? 1.0) = false ∧ assess_risk_corrected x = risk_SEVERE).
Proof.
  unfold assess_risk_corrected.
  destruct (x <? 0.15) eqn:E1; [by left|].
  destruct (x <? 0.3) eqn:E2; [by right; left|].
  destruct (x <? 0.5) eqn:E3; [by right; right; left|].
  destruct (x <? 1.0) eqn:E4; [by right; right; right; left|].
  by right; right; right; right.
Qed.

(** C1. For every dose rate in [0, ∞) the classification is the row of the
    table of section 4.1 whose range holds the dose rate: some row does, and
    for every row that does, the call returns that row's level and action;
    the bounds are exclusive above and inclusive below, so that 0.15 is LOW,
    0.14999 is SAFE, 0.3 is MODERATE and 1.0 is SEVERE. *)
Theorem classify_follows_table (doseRate : float) :
  (0 <=? doseRate) = true →
  (∃ row, row ∈ Spec.table_4_1 ∧ Spec.in_range row.1.1 doseRate = true)
  ∧ (∀ rng lvl act,
       (rng, lvl, act) ∈ Spec.table_4_1 →
       Spec.in_range rng doseRate = true →
       ∃ r, classify doseRate = Return r ∧ level r = lvl ∧ action r = act)
  ∧ level (assess_risk_corrected 0.15) = "LOW"%string
  ∧ level (assess_risk_corrected 0.14999) = "SAFE"%string
  ∧ level (assess_risk_corrected 0.3) = "MODERATE"%string
  ∧ level (assess_risk_corrected 1.0) = "SEVERE"%string.
Proof.
  intros H0. pose proof (leb_defined_r _ _ H0) as Hd.
  split; [|split; [|by repeat split]].
  - unfold Spec.table_4_1.
    destruct (assess_risk_corrected_cases doseRate)
      as [[H1 _]|[(H1 & H2 & _)|[(H1 & H2 & _)|[(H1 & H2 & _)|[H1 _]]]]].
    + eexists. split; [apply list_elem_of_here|]. exact H1.
    + eexists. split; [do 1 apply list_elem_of_further; apply list_elem_of_here|].
      simpl. by rewrite not_ltb_leb, H2.
    + eexists. split; [do 2 apply list_elem_of_further; apply list_elem_of_here|].
      simpl. by rewrite not_ltb_leb, H2.
    + eexists. split; [do 3 apply list_elem_of_further; apply list_elem_of_here|].
      simpl. by rewrite not_ltb_leb, H2.
    + eexists. split; [do 4 apply list_elem_of_further; apply list_elem_of_here|].
      simpl. by rewrite not_ltb_leb.
  - intros rng lvl act Hin Hr. exists (assess_risk_corrected doseRate).
    split; [reflexivity|]. unfold Spec.table_4_1 in Hin.
    repeat (apply elem_of_cons in Hin as [Heq|Hin]; [injection Heq as -> -> ->|]);
      [..|by apply elem_of_nil in Hin]; simpl in Hr;
      try (apply andb_true_iff in Hr as [Hlo Hhi]);
      unfold assess_risk_corrected.
    + by rewrite Hr.
    + by rewrite (leb_not_ltb _ _ Hlo), Hhi.
    + by rewrite (above_not_below 0.3 0.15 _ Hlo), (leb_not_ltb _ _ Hlo), Hhi.
    + by rewrite (above_not_below 0.5 0.15 _ Hlo), (above_not_below 0.5 0.3 _ Hlo),
        (leb_not_ltb _ _ Hlo), Hhi.
    + by rewrite (above_not_below 1.0 0.15 _ Hr), (above_not_below 1.0 0.3 _ Hr),
        (above_not_below 1.0 0.5 _ Hr), (leb_not_ltb _ _ Hr).
Qed.

Lemma classify_follows_table_witness :
  (0 <=? 0.4385) = true
  ∧ ∃ r, classify 0.4385 = Return r
         ∧ level r = "MODERATE"%string
         ∧ action r = "Investigate possible sources"%string.
Proof.
  split; [reflexivity|].
  destruct (classify_follows_table 0.4385 eq_refl) as (_ & Hrow & _).
  apply (Hrow (Spec.Between 0.3 0.5)); [|reflexivity].
  do 2 apply list_elem_of_further. apply list_elem_of_here.
Defined.

(** The claim of C2 fails at -1: the call returns the SAFE dictionary and
    raises nothing. *)
Lemma classify_negative_is_classified :
  (-1 <? 0) = true
  ∧ classify (-1) = Return risk_SAFE
  ∧ ¬ ∃ e, classify (-1) = Raise e.
Proof.
  split; [reflexivity|]. split; [reflexivity|]. intros [e He]. discriminate He.
Qed.

(** C2, as the code has it. No float makes the call raise: a negative dose
    rate, minus infinity included, is below the first threshold and is
    classified SAFE; NaN and plus infinity pass no test and are classified
    SEVERE. *)
Theorem classify_outside_domain (doseRate : float) :
  (∃ r, classify doseRate = Return r)
  ∧ ((doseRate <? 0) = true → classify doseRate = Return risk_SAFE)
  ∧ (is_nan doseRate = true → classify doseRate = Return risk_SEVERE)
  ∧ (doseRate = infinity → classify doseRate = Return risk_SEVERE)
  ∧ (doseRate = neg_infinity → classify doseRate = Return risk_SAFE).
Proof.
  unfold classify. split; [by eexists|].
  split; [|split; [|by split; intros ->]].
  - intros Hneg. unfold assess_risk_corrected.
    by rewrite (ltb_trans doseRate 0 0.15 Hneg).
  - intros Hnan. unfold assess_risk_corrected.
    by rewrite !(nan_ltb_l doseRate _ Hnan).
Qed.

Lemma classify_outside_domain_witness :
  (-1 <? 0) = true ∧ classify (-1) = Return risk_SAFE.
Proof.
  split; [reflexivity|].
  destruct (classify_outside_domain (-1)) as (_ & Hneg & _).
  apply Hneg. reflexivity.
Defined.

(** The level never goes down when the dose rate goes up, whatever the sign
    of the smaller one. *)
Lemma assess_risk_corrected_monotone (a b : float) :
  (a <? b) = true →
  ∃ ra rb,
    Spec.rank (level (assess_risk_corrected a)) = Some ra
    ∧ Spec.rank (level (assess_risk_corrected b)) = Some rb
    ∧ (ra <= rb)%nat.
Proof.
  intros Hab.
  destruct (assess_risk_corrected_cases a)
    as [[A1 ->]|[(A1 & A2 & ->)|[(A1 & A2 & ->)|[(A1 & A2 & ->)|[A1 ->]]]]];
  destruct (assess_risk_corrected_cases b)
    as [[B1 ->]|[(B1 & B2 & ->)|[(B1 & B2 & ->)|[(B1 & B2 & ->)|[B1 ->]]]]];
  first
    [ eexists _, _; split; [reflexivity|]; split; [reflexivity|]; simpl; lia
    | exfalso;
      match goal with
      | Ha : (a <? ?ta) = false, Hb : (b <? ?tb) = true |- _ =>
          pose proof (ltb_leb_trans a tb ta (ltb_trans a b tb Hab Hb) eq_refl);
          congruence
      end ].
Qed.

(** C7. For [0 <= a < b] the rank of the level of [a] is at most the rank of
    the level of [b], in the order SAFE < LOW < MODERATE < HIGH < SEVERE. *)
Theorem classify_monotone (a b : float) :
  (0 <=? a) = true → (a <? b) = true →
  ∃ r_a r_b rank_a rank_b,
    classify a = Return r_a ∧ classify b = Return r_b
    ∧ Spec.rank (level r_a) = Some rank_a
    ∧ Spec.rank (level r_b) = Some rank_b
    ∧ (rank_a <= rank_b)%nat.
Proof.
  intros _ Hab.
  destruct (assess_risk_corrected_monotone a b Hab) as (ra & rb & Ha & Hb & Hle).
  exists (assess_risk_corrected a), (assess_risk_corrected b), ra, rb.
  by repeat split.
Qed.

Lemma classify_monotone_witness :
  ∃ r_a r_b rank_a rank_b,
    classify 0.2 = Return r_a ∧ classify 0.75 = Return r_b
    ∧ Spec.rank (level r_a) = Some rank_a
    ∧ Spec.rank (level r_b) = Some rank_b
    ∧ (rank_a <= rank_b)%nat.
Proof. apply (classify_monotone 0.2 0.75); reflexivity. Defined.

End Classification.

(* ===================================================================== *)
(** ** The lookups keyed by a level *)
(* ===================================================================== *)

Section Lookups.

Local Open Scope float_scope.

Lemma assess_risk_corrected_image (x : float) :
  assess_risk_corrected x ∈ [risk_SAFE; risk_LOW; risk_MODERATE; risk_HIGH; risk_SEVERE].
Proof.
  destruct (assess_risk_corrected_cases x)
    as [[_ ->]|[(_ & _ & ->)|[(_ & _ & ->)|[(_ & _ & ->)|[_ ->]]]]];
    set_solver.
Qed.

Lemma level_in_levels (x : float) : level (assess_risk_corrected x) ∈ Spec.levels.
Proof.
  destruct (assess_risk_corrected_cases x)
    as [[_ ->]|[(_ & _ & ->)|[(_ & _ & ->)|[(_ & _ & ->)|[_ ->]]]]];
    unfold Spec.levels; set_solver.
Qed.

Lemma risk_counts_init_holds : holds_counts risk_counts_init 0.
Proof.
  exists 0%nat, 0%nat, 0%nat, 0%nat, 0%nat.
  repeat split; reflexivity.
Qed.

(** One more sample: the counter of its level exists and goes up by one. *)
Lemma increment_holds (risk_counts : gmap string nat) (n : nat) (key : string) :
  holds_counts risk_counts n → key ∈ Spec.levels →
  ∃ risk_counts', increment risk_counts key = Return risk_counts'
                  ∧ holds_counts risk_counts' (S n).
Proof.
  intros (s & l & m & h & v & Hs & Hl & Hm & Hh & Hv & Hdom & Hsum) Hkey.
  unfold increment, Py.getitem, Spec.levels in *.
  repeat (apply elem_of_cons in Hkey as [->|Hkey]);
    [..|by apply elem_of_nil in Hkey];
    match goal with
    | H : risk_counts !! ?k = Some _ |- context [risk_counts !! ?k] => rewrite H
    end; cbn; (eexists; split; [reflexivity|]).
  - exists (s + 1)%nat, l, m, h, v. rewrite dom_insert_L, Hdom.
    repeat split; simplify_map_eq; try done; try lia; set_solver.
  - exists s, (l + 1)%nat, m, h, v. rewrite dom_insert_L, Hdom.
    repeat split; simplify_map_eq; try done; try lia; set_solver.
  - exists s, l, (m + 1)%nat, h, v. rewrite dom_insert_L, Hdom.
    repeat split; simplify_map_eq; try done; try lia; set_solver.
  - exists s, l, m, (h + 1)%nat, v. rewrite dom_insert_L, Hdom.
    repeat split; simplify_map_eq; try done; try lia; set_solver.
  - exists s, l, m, h, (v + 1)%nat. rewrite dom_insert_L, Hdom.
    repeat split; simplify_map_eq; try done; try lia; set_solver.
Qed.

(** A dose rate classified MODERATE or above is not at or below zero. *)
Lemma hot_level_not_le_0 (x : float) :
  level (assess_risk_corrected x) ∈ ["MODERATE"; "HIGH"; "SEVERE"]%string →
  (x <=? 0) = false.
Proof.
  intros Hhot. destruct (x <=? 0) eqn:Hle; [exfalso|reflexivity].
  pose proof (leb_ltb_trans x 0 0.15 Hle eq_refl) as H15.
  revert Hhot. unfold assess_risk_corrected. rewrite H15. simpl. intros Hhot.
  repeat (apply elem_of_cons in Hhot as [Heq|Hhot]; [discriminate Heq|]).
  by apply elem_of_nil in Hhot.
Qed.

(** Above zero, and for NaN, the exposure dictionary has both safety texts. *)
Lemma exposure_safety_entries (x : float) :
  (x <=? 0) = false →
  ∃ public_safety worker_safety,
    calculate_exposure_safety x !! "public_safety"%string = Some public_safety
    ∧ calculate_exposure_safety x !! "worker_safety"%string = Some worker_safety.
Proof.
  intros Hx. unfold calculate_exposure_safety. rewrite Hx.
  eexists _, _. split; reflexivity.
Qed.

Lemma exposure_status_entry (x : float) :
  (x <=? 0) = true →
  calculate_exposure_safety x = {[ "status"%string := "No radiation detected"%string ]}.
Proof. intros Hx. unfold calculate_exposure_safety. by rewrite Hx. Qed.

(** The loop of the report: the counters stay complete, every sample is
    counted once, and every hotspot found is reportable. *)
Lemma scan_rows_holds (rows : list row) :
  ∀ (idx : nat) (risk_counts : gmap string nat) (hotspots : list hotspot) (n : nat),
    holds_counts risk_counts n → Forall reportable hotspots →
    ∃ risk_counts' hotspots',
      scan_rows idx rows risk_counts hotspots = Return (risk_counts', hotspots')
      ∧ holds_counts risk_counts' (n + length rows)
      ∧ Forall reportable hotspots'.
Proof.
  induction rows as [|r rest IH]; intros idx rc hs n Hrc Hhs; simpl.
  - exists rc, hs. by rewrite Nat.add_0_r.
  - destruct (increment_holds rc n _ Hrc (level_in_levels (Radiation_uSv_h r)))
      as (rc' & -> & Hrc'). cbn.
    replace (n + S (length rest))%nat with (S n + length rest)%nat by lia.
    apply IH; [exact Hrc'|]. case_bool_decide as Hhot; [|exact Hhs].
    apply Forall_app. split; [exact Hhs|]. apply Forall_singleton.
    by apply hot_level_not_le_0.
Qed.

(** What the loop adds to each counter: the number of rows of its level. *)
Lemma scan_rows_counts (rows : list row) :
  ∀ (idx : nat) (rc rc' : gmap string nat) (hs hs' : list hotspot),
    scan_rows idx rows rc hs = Return (rc', hs') →
    ∀ l, rc' !! l = (λ n, n + count_level l rows)%nat <$> rc !! l.
Proof.
  induction rows as [|r rest IH]; intros idx rc rc' hs hs' Hrun l; simpl in Hrun.
  - injection Hrun as <- <-. unfold count_level. simpl.
    destruct (rc !! l); simpl; [f_equal; lia|reflexivity].
  - unfold increment, Py.getitem in Hrun.
    destruct (rc !! level _) as [n|] eqn:Hn; cbn in Hrun; [|discriminate Hrun].
    rewrite (IH _ _ _ _ _ Hrun l). unfold count_level. simpl.
    destruct (decide (level (assess_risk_corrected (Radiation_uSv_h r)) = l))
      as [Hl|Hl].
    + rewrite (bool_decide_eq_true_2 _ Hl). subst l.
      rewrite lookup_insert_eq, Hn. simpl. f_equal. lia.
    + rewrite (bool_decide_eq_false_2 _ Hl). by rewrite lookup_insert_ne.
Qed.

(** The tally of the statistics panel never misses a key either. *)
Lemma count_risk_levels_holds (rows : list row) :
  ∀ (risk_counts : gmap string nat) (n : nat),
    holds_counts risk_counts n →
    ∃ risk_counts',
      count_risk_levels rows risk_counts = Return risk_counts'
      ∧ holds_counts risk_counts' (n + length rows).
Proof.
  induction rows as [|r rest IH]; intros rc n Hrc; simpl.
  - exists rc. by rewrite Nat.add_0_r.
  - destruct (increment_holds rc n _ Hrc (level_in_levels (Radiation_uSv_h r)))
      as (rc' & -> & Hrc'). cbn.
    replace (n + S (length rest))%nat with (S n + length rest)%nat by lia.
    by apply IH.
Qed.

Lemma risk_zone_returns (r : row) : ∃ c, risk_zone r = Return c.
Proof.
  unfold risk_zone, Py.getitem.
  destruct (assess_risk_corrected_cases (Radiation_uSv_h r))
    as [[_ ->]|[(_ & _ & ->)|[(_ & _ & ->)|[(_ & _ & ->)|[_ ->]]]]];
    cbn; by eexists.
Qed.

Lemma risk_zones_return (rows : list row) :
  ∃ cs, risk_zones rows = Return cs ∧ length cs = length rows.
Proof.
  induction rows as [|r rest (cs & IH & Hlen)]; simpl; [by eexists|].
  destruct (risk_zone_returns r) as [c ->]. rewrite IH. cbn.
  eexists. split; [reflexivity|]. simpl. by rewrite Hlen.
Qed.

Lemma hotspots_text_returns (hs : list hotspot) :
  Forall reportable hs → ∃ t, hotspots_text hs = Return t.
Proof.
  induction 1 as [|h rest Hh _ [t IH]]; simpl; [by eexists|].
  unfold hotspot_lines, Py.getitem.
  destruct (exposure_safety_entries _ Hh) as (p & w & -> & ->).
  rewrite IH. cbn. by eexists.
Qed.

Lemma write_report_returns (a : assessment) (n : nat) :
  holds_counts (risk_counts a) n → Forall reportable (hotspots a) →
  ∃ text, write_report a = Return text.
Proof.
  intros (s & l & m & h & v & Hs & Hl & Hm & Hh & Hv & _) Hhot.
  unfold write_report, Py.getitem. rewrite Hs, Hl, Hm, Hh, Hv. cbn.
  destruct (hotspots a) as [|h0 hs] eqn:Ehs; [cbn; by eexists|].
  destruct (hotspots_text_returns _ Hhot) as [t ->]. cbn. by eexists.
Qed.

Lemma assess_data_holds (radiation_data : RadiationData) :
  ∃ a, assess_data radiation_data = Return a
       ∧ n_points a = length (data_points radiation_data)
       ∧ holds_counts (risk_counts a) (length (data_points radiation_data))
       ∧ (∀ l, l ∈ Spec.levels →
               risk_counts a !! l = Some (count_level l (data_points radiation_data)))
       ∧ Forall reportable (hotspots a).
Proof.
  unfold assess_data, get_dataframe.
  destruct (scan_rows_holds (data_points radiation_data) 0 risk_counts_init [] 0
              risk_counts_init_holds (Forall_nil_2 _)) as (rc & hs & Hrun & Hrc & Hhs).
  pose proof (scan_rows_counts _ _ _ _ _ _ Hrun) as Hcount.
  rewrite Hrun. cbn. destruct (overall_assessment _) as [lvl recs].
  eexists. split; [reflexivity|]. simpl. repeat split; try done.
  intros l Hl. rewrite Hcount. unfold Spec.levels in Hl.
  repeat (apply elem_of_cons in Hl as [->|Hl]); [..|by apply elem_of_nil in Hl];
    reflexivity.
Qed.

End Lookups.

(** C10. Whatever the float, negative ones and NaN included, the dictionary
    returned is one of five fixed ones, so its level is one of the five
    level names with its own color, action and description, and each of the
    five names is the level of some float; the zone size table and the
    counters have an entry for it, and no call of the zone overlay, of the
    statistics tally or of the report raises [KeyError]. *)
Theorem level_lookups_never_fail :
  (∀ x : float,
     assess_risk_corrected x
       ∈ [risk_SAFE; risk_LOW; risk_MODERATE; risk_HIGH; risk_SEVERE]
     ∧ level (assess_risk_corrected x) ∈ Spec.levels
     ∧ (∃ size, Py.getitem zone_sizes (level (assess_risk_corrected x)) = Return size)
     ∧ (∃ n, Py.getitem risk_counts_init (level (assess_risk_corrected x)) = Return n))
  ∧ (∀ l, l ∈ Spec.levels ↔ ∃ x : float, level (assess_risk_corrected x) = l)
  ∧ (∀ d : RadiationData, ∃ circles, add_risk_zones d = Return circles)
  ∧ (∀ d : RadiationData, ∃ counts, add_statistics_panel d = Return counts)
  ∧ (∀ d : RadiationData, ∃ text, generate_risk_report d = Return text).
Proof.
  split; [|split; [|split; [|split]]].
  - intros x. split; [apply assess_risk_corrected_image|].
    split; [apply level_in_levels|]. unfold Py.getitem.
    destruct (assess_risk_corrected_cases x)
      as [[_ ->]|[(_ & _ & ->)|[(_ & _ & ->)|[(_ & _ & ->)|[_ ->]]]]];
      split; by eexists.
  - intros l. split; [|intros [x <-]; apply level_in_levels].
    unfold Spec.levels. intros Hl.
    repeat (apply elem_of_cons in Hl as [->|Hl]); [..|by apply elem_of_nil in Hl].
    + by exists 0%float.
    + by exists 0.2%float.
    + by exists 0.4%float.
    + by exists 0.75%float.
    + by exists 2%float.
  - intros d. unfold add_risk_zones, get_dataframe.
    destruct (risk_zones_return (data_points d)) as (cs & -> & _). by eexists.
  - intros d. unfold add_statistics_panel, get_dataframe.
    destruct (count_risk_levels_holds (data_points d) _ 0 risk_counts_init_holds)
      as (rc & -> & _). by eexists.
  - intros d. unfold generate_risk_report.
    destruct (assess_data_holds d) as (a & -> & _ & Hrc & _ & Hhot). cbn.
    by eapply write_report_returns.
Qed.

(** C9. For a dataset that is not empty, the report's risk distribution has
    a count for each of the five levels and for nothing else; the count of a
    level is the number of samples classified at it, so 0 when there is
    none; and the five counts add up to the number of samples. *)
Theorem risk_distribution_complete (d : RadiationData) :
  (0 < length (data_points d))%nat →
  ∃ a safe low moderate high severe,
    assess_data d = Return a
    ∧ dom (risk_counts a) = {[ "SAFE"; "LOW"; "MODERATE"; "HIGH"; "SEVERE" ]}
    ∧ risk_counts a !! "SAFE" = Some safe
    ∧ risk_counts a !! "LOW" = Some low
    ∧ risk_counts a !! "MODERATE" = Some moderate
    ∧ risk_counts a !! "HIGH" = Some high
    ∧ risk_counts a !! "SEVERE" = Some severe
    ∧ (safe + low + moderate + high + severe = length (data_points d))%nat
    ∧ n_points a = length (data_points d)
    ∧ (∀ l, l ∈ Spec.levels →
            risk_counts a !! l = Some (count_level l (data_points d))).
Proof.
  intros _.
  destruct (assess_data_holds d)
    as (a & Ha & Hn & (s & l & m & h & v & Hs & Hl & Hm & Hh & Hv & Hdom & Hsum)
        & Hcount & _).
  exists a, s, l, m, h, v. by rewrite Hdom.
Qed.

Lemma risk_distribution_complete_witness :
  (0 < length (data_points sample_data))%nat
  ∧ ∃ a safe low moderate high severe,
    assess_data sample_data = Return a
    ∧ dom (risk_counts a) = {[ "SAFE"; "LOW"; "MODERATE"; "HIGH"; "SEVERE" ]}
    ∧ risk_counts a !! "SAFE" = Some safe
    ∧ risk_counts a !! "LOW" = Some low
    ∧ risk_counts a !! "MODERATE" = Some moderate
    ∧ risk_counts a !! "HIGH" = Some high
    ∧ risk_counts a !! "SEVERE" = Some severe
    ∧ (safe + low + moderate + high + severe = 4)%nat
    ∧ n_points a = 4%nat
    ∧ (∀ l, l ∈ Spec.levels →
            risk_counts a !! l = Some (count_level l (data_points sample_data))).
Proof.
  split; [simpl; lia|].
  apply (risk_distribution_complete sample_data). simpl. lia.
Defined.

(* ===================================================================== *)
(** ** The aggregate index *)
(* ===================================================================== *)

Section AggregateIndex.

Local Open Scope float_scope.

(** [min(100, v)] is a number even when [v] is not. *)
Lemma compute_risk_index_defined (stats : statistics) :
  defined (compute_risk_index stats).
Proof.
  unfold compute_risk_index, Py.min.
  destruct (_ <? 100) eqn:E; [by eapply ltb_defined_l|reflexivity].
Qed.

(** The chain of tests on the index, read as the five cases it separates. *)
Lemma overall_assessment_cases (x : float) :
  ((x <? 30) = true ∧ (overall_assessment x).1 = "SAFE"%string)
  ∨ ((x <? 30) = false ∧ (x <? 50) = true ∧ (overall_assessment x).1 = "LOW"%string)
  ∨ ((x <? 50) = false ∧ (x <? 70) = true
     ∧ (overall_assessment x).1 = "MODERATE"%string)
  ∨ ((x <? 70) = false ∧ (x <? 90) = true ∧ (overall_assessment x).1 = "HIGH"%string)
  ∨ ((x <? 90) = false ∧ (overall_assessment x).1 = "SEVERE"%string).
Proof.
  unfold overall_assessment.
  destruct (x <? 30) eqn:E1; [by left|].
  destruct (x <? 50) eqn:E2; [by right; left|].
  destruct (x <? 70) eqn:E3; [by right; right; left|].
  destruct (x <? 90) eqn:E4; [by right; right; right; left|].
  by right; right; right; right.
Qed.

(** The report takes its index and level from these two functions. *)
Lemma assess_data_index (d : RadiationData) (a : assessment) :
  assess_data d = Return a →
  stats_of a = (get_dataframe d).2
  ∧ risk_index a = compute_risk_index (stats_of a)
  ∧ overall_risk a = (overall_assessment (risk_index a)).1
  ∧ recommendations a = (overall_assessment (risk_index a)).2.
Proof.
  unfold assess_data. destruct (get_dataframe d) as [df stats].
  destruct (scan_rows 0 df risk_counts_init []) as [[rc hs]|e]; cbn; [|discriminate].
  destruct (overall_assessment (compute_risk_index stats)) as [lvl recs] eqn:E.
  intros [= <-]. simpl. by rewrite E.
Qed.

(** C5. With [max] and [mean] defined, the index is
    [min(100, max*70 + mean*30)]: the weighted sum when it is below 100 and
    100 when it is not; and the overall level is the one of the row of the
    thresholds of section 4.3 that holds the index. *)
Theorem aggregate_index_and_level (stats : statistics) :
  defined (max stats) → defined (mean stats) →
  let weighted := max stats * 70 + mean stats * 30 in
  let index := compute_risk_index stats in
  ((weighted <? 100) = true → index = weighted)
  ∧ ((100 <=? weighted) = true → index = 100)
  ∧ (∃ row, row ∈ Spec.table_4_3 ∧ Spec.in_range row.1 index = true)
  ∧ (∀ rng lvl,
       (rng, lvl) ∈ Spec.table_4_3 →
       Spec.in_range rng index = true →
       (overall_assessment index).1 = lvl).
Proof.
  intros _ _ weighted index.
  pose proof (compute_risk_index_defined stats) as Hd. fold index in Hd.
  split; [|split; [|split]].
  - intros H. unfold index, compute_risk_index, Py.min. fold weighted. by rewrite H.
  - intros H. unfold index, compute_risk_index, Py.min. fold weighted.
    by rewrite (leb_not_ltb _ _ H).
  - unfold Spec.table_4_3.
    destruct (overall_assessment_cases index)
      as [[H1 _]|[(H1 & H2 & _)|[(H1 & H2 & _)|[(H1 & H2 & _)|[H1 _]]]]].
    + eexists. split; [apply list_elem_of_here|]. exact H1.
    + eexists. split; [do 1 apply list_elem_of_further; apply list_elem_of_here|].
      simpl. by rewrite not_ltb_leb, H2.
    + eexists. split; [do 2 apply list_elem_of_further; apply list_elem_of_here|].
      simpl. by rewrite not_ltb_leb, H2.
    + eexists. split; [do 3 apply list_elem_of_further; apply list_elem_of_here|].
      simpl. by rewrite not_ltb_leb, H2.
    + eexists. split; [do 4 apply list_elem_of_further; apply list_elem_of_here|].
      simpl. by rewrite not_ltb_leb.
  - intros rng lvl Hin Hr. unfold Spec.table_4_3 in Hin.
    repeat (apply elem_of_cons in Hin as [Heq|Hin]; [injection Heq as -> ->|]);
      [..|by apply elem_of_nil in Hin]; simpl in Hr;
      try (apply andb_true_iff in Hr as [Hlo Hhi]);
      unfold overall_assessment.
    + by rewrite Hr.
    + by rewrite (leb_not_ltb _ _ Hlo), Hhi.
    + by rewrite (above_not_below 50 30 _ Hlo), (leb_not_ltb _ _ Hlo), Hhi.
    + by rewrite (above_not_below 70 30 _ Hlo), (above_not_below 70 50 _ Hlo),
        (leb_not_ltb _ _ Hlo), Hhi.
    + by rewrite (above_not_below 90 30 _ Hr), (above_not_below 90 50 _ Hr),
        (above_not_below 90 70 _ Hr), (leb_not_ltb _ _ Hr).
Qed.

Lemma aggregate_index_and_level_witness :
  defined 0.4385 ∧ defined 0.109625
  ∧ (overall_assessment
       (compute_risk_index {| mean := 0.109625; max := 0.4385; min := 0 |})).1
    = "LOW"%string.
Proof.
  split; [reflexivity|]. split; [reflexivity|].
  destruct (aggregate_index_and_level
              {| mean := 0.109625; max := 0.4385; min := 0 |} eq_refl eq_refl)
    as (_ & _ & _ & Hrow).
  apply (Hrow (Spec.Between 30 50)); [|reflexivity].
  do 1 apply list_elem_of_further. apply list_elem_of_here.
Defined.

(** The claim of C8 fails for one negative reading: the index is -100. *)
Lemma aggregate_index_below_zero :
  compute_risk_index (get_dataframe negative_data).2 = (-100)
  ∧ (0 <=? compute_risk_index (get_dataframe negative_data).2) = false.
Proof. split; reflexivity. Qed.

Lemma compute_risk_index_le_100 (stats : statistics) :
  (compute_risk_index stats <=? 100) = true.
Proof.
  unfold compute_risk_index, Py.min.
  destruct (_ <? 100) eqn:E; [by apply ltb_leb|reflexivity].
Qed.

Lemma compute_risk_index_nonneg (stats : statistics) :
  (0 <=? max stats) = true → (0 <=? mean stats) = true →
  (0 <=? compute_risk_index stats) = true.
Proof.
  intros Hmax Hmean. unfold compute_risk_index, Py.min.
  destruct (_ <? 100) eqn:E; [|reflexivity].
  apply add_nonneg; eapply mul_nonneg; try eassumption; vm_compute; reflexivity.
Qed.

(** A statistic that is NaN makes the weighted sum NaN, and [min] then
    keeps its first argument. *)
Lemma compute_risk_index_nan (stats : statistics) :
  is_nan (max stats) = true ∨ is_nan (mean stats) = true →
  compute_risk_index stats = 100.
Proof.
  intros H. unfold compute_risk_index, Py.min. rewrite nan_ltb_l; [reflexivity|].
  destruct H as [H|H]; [apply nan_add_l|apply nan_add_r]; by apply nan_mul_l.
Qed.

Lemma dropna_Forall (P : float → Prop) (xs : list float) :
  Forall P xs → Forall P (Series.dropna xs).
Proof.
  induction 1 as [|x xs Hx _ IH]; simpl; [constructor|].
  destruct (negb (is_nan x)); [by constructor|exact IH].
Qed.

Lemma sum_nonneg (xs : list float) :
  ∀ acc, (0 <=? acc) = true → Forall (λ x, (0 <=? x) = true) xs →
         (0 <=? foldl PrimFloat.add acc xs) = true.
Proof.
  induction xs as [|x xs IH]; intros acc Hacc Hxs; simpl; [exact Hacc|].
  inversion Hxs; subst. apply IH; [by apply add_nonneg|assumption].
Qed.

Lemma max_nonneg (xs : list float) :
  ∀ v, (0 <=? v) = true → Forall (λ x, (0 <=? x) = true) xs →
       (0 <=? foldl (λ m x, if m <? x then x else m) v xs) = true.
Proof.
  induction xs as [|x xs IH]; intros v Hv Hxs; simpl; [exact Hv|].
  inversion Hxs; subst. apply IH; [|assumption]. by destruct (v <? x).
Qed.

(** The statistics of dose rates that are not negative are not negative,
    or NaN. *)
Lemma statistics_nonneg (d : RadiationData) :
  Forall (λ r, (0 <=? Radiation_uSv_h r) = true) (data_points d) →
  let stats := (get_dataframe d).2 in
  (is_nan (max stats) = true ∨ (0 <=? max stats) = true)
  ∧ (is_nan (mean stats) = true ∨ (0 <=? mean stats) = true).
Proof.
  intros Hd. simpl. unfold Series.max, Series.mean.
  assert (Forall (λ x, (0 <=? x) = true)
            (Series.dropna (Radiation_uSv_h <$> data_points d))) as Hxs.
  { apply dropna_Forall. by apply Forall_fmap. }
  destruct (Series.dropna _) as [|v vs]; [by split; left|].
  inversion Hxs; subst. split.
  - right. by apply max_nonneg.
  - apply div_count_nonneg.
    unfold Series.sum. apply sum_nonneg; [reflexivity|exact Hxs].
Qed.

(** The index of a dataset of dose rates that are not negative, the empty
    one included, lies between 0 and 100. *)
Lemma dataset_index_bounds (d : RadiationData) :
  Forall (λ r, (0 <=? Radiation_uSv_h r) = true) (data_points d) →
  (0 <=? compute_risk_index (get_dataframe d).2) = true
  ∧ (compute_risk_index (get_dataframe d).2 <=? 100) = true.
Proof.
  intros Hd. split; [|apply compute_risk_index_le_100].
  destruct (statistics_nonneg d Hd) as [[Hmax|Hmax] [Hmean|Hmean]];
    try (rewrite compute_risk_index_nan; [reflexivity|by auto]).
  by apply compute_risk_index_nonneg.
Qed.

(** C8, as the code has it. The index is never above 100, and it is not
    below 0 when [max] and [mean] are not negative, which is the case for
    the statistics of dose rates that are not negative. *)
Theorem aggregate_index_bounds (stats : statistics) :
  (compute_risk_index stats <=? 100) = true
  ∧ ((0 <=? max stats) = true → (0 <=? mean stats) = true →
     (0 <=? compute_risk_index stats) = true).
Proof.
  split; [apply compute_risk_index_le_100|apply compute_risk_index_nonneg].
Qed.

Lemma aggregate_index_bounds_witness :
  (0 <=? 0.4385) = true ∧ (0 <=? 0.109625) = true
  ∧ (0 <=? compute_risk_index {| mean := 0.109625; max := 0.4385; min := 0 |}) = true.
Proof.
  split; [reflexivity|]. split; [reflexivity|].
  apply (aggregate_index_bounds {| mean := 0.109625; max := 0.4385; min := 0 |});
    reflexivity.
Defined.

End AggregateIndex.

(* ===================================================================== *)
(** ** The report *)
(* ===================================================================== *)

Section Report.

Local Open Scope float_scope.

(** C6. On the four samples of the scenario: mean 0.109625, max 0.4385,
    min 0; point 1 is MODERATE and points 2 to 4 are SAFE; the only hotspot
    is point 1; the index is [min(100, 0.4385*70 + 0.109625*30)], which is
    33.98 to two decimals and lies in [30, 50); the overall level is LOW. *)
Theorem end_to_end_scenario :
  ∃ a,
    assess_data scenario_data = Return a
    ∧ mean (stats_of a) = 0.109625
    ∧ max (stats_of a) = 0.4385
    ∧ min (stats_of a) = 0
    ∧ (λ r, level (assess_risk_corrected (Radiation_uSv_h r)))
        <$> data_points scenario_data
      = ["MODERATE"; "SAFE"; "SAFE"; "SAFE"]%string
    ∧ risk_counts a
      = list_to_map [("SAFE", 3); ("LOW", 0); ("MODERATE", 1);
                     ("HIGH", 0); ("SEVERE", 0)]%string%nat
    ∧ hotspots a
      = [ {| point := 1; radiation := 0.4385; hotspot_risk := "MODERATE" |} ]
    ∧ risk_index a = Py.min 100 (0.4385 * 70 + 0.109625 * 30)
    ∧ Py.format_f 2 (risk_index a) = "33.98"%string
    ∧ (30 <=? risk_index a) = true
    ∧ (risk_index a <? 50) = true
    ∧ overall_risk a = "LOW"%string.
Proof.
  eexists. split; [vm_compute; reflexivity|].
  repeat split; vm_compute; reflexivity.
Qed.

(** The measurements stored by [__init__] give the same figures. *)
Lemma sample_data_scenario :
  ∃ a,
    assess_data sample_data = Return a
    ∧ stats_of a = {| mean := 0.109625; max := 0.4385; min := 0 |}
    ∧ hotspots a
      = [ {| point := 1; radiation := 0.4385; hotspot_risk := "MODERATE" |} ]
    ∧ overall_risk a = "LOW"%string.
Proof.
  eexists. split; [vm_compute; reflexivity|].
  repeat split; vm_compute; reflexivity.
Qed.

(** The claim of C3 fails on the dataset with no sample: the call returns a
    text and raises nothing. The statistics are NaN, [min(100, nan)] is 100,
    and the text reports the level SEVERE for no data point. *)
Lemma empty_dataset_is_reported :
  (∃ text, generate_risk_report empty_data = Return text)
  ∧ ¬ (∃ e, generate_risk_report empty_data = Raise e)
  ∧ (∃ a, assess_data empty_data = Return a
          ∧ n_points a = 0%nat
          ∧ risk_index a = 100
          ∧ overall_risk a = "SEVERE"%string).
Proof.
  split; [|split].
  - eexists. vm_compute. reflexivity.
  - intros [e He]. vm_compute in He. discriminate He.
  - eexists. split; [vm_compute; reflexivity|]. by repeat split.
Qed.

(** C3, as the code has it. On a dataset with no sample the report is
    written: it counts no point, every level count is 0, there is no
    hotspot, and the statistics are NaN, not zero. *)
Theorem empty_dataset_report (d : RadiationData) :
  length (data_points d) = 0%nat →
  ∃ a text,
    assess_data d = Return a
    ∧ generate_risk_report d = Return text
    ∧ n_points a = 0%nat
    ∧ risk_counts a = risk_counts_init
    ∧ hotspots a = []
    ∧ is_nan (mean (stats_of a)) = true
    ∧ is_nan (max (stats_of a)) = true
    ∧ is_nan (min (stats_of a)) = true.
Proof.
  destruct d as [rows]. simpl. intros Hlen.
  apply length_zero_iff_nil in Hlen as ->.
  eexists _, _. split; [vm_compute; reflexivity|].
  split; [vm_compute; reflexivity|]. repeat split.
Qed.

Lemma empty_dataset_report_witness :
  ∃ a text,
    assess_data empty_data = Return a
    ∧ generate_risk_report empty_data = Return text
    ∧ n_points a = 0%nat
    ∧ risk_counts a = risk_counts_init
    ∧ hotspots a = []
    ∧ is_nan (mean (stats_of a)) = true
    ∧ is_nan (max (stats_of a)) = true
    ∧ is_nan (min (stats_of a)) = true.
Proof. apply (empty_dataset_report empty_data). reflexivity. Defined.

End Report.

(* ===================================================================== *)
(** ** The exposure estimate *)
(* ===================================================================== *)

Section Exposure.

Local Open Scope float_scope.

(** The claim of C4 fails at 0.4385 μSv/h. The dictionary holds texts
    rounded to whole days and to tenths of a percent, not the quantities:
    0.4385 and 0.4386 give different numbers of days and the same entry, so
    nothing can read the quantity back from what is stored; the stored
    percentages are 87.7 and 4.4, and 20 times 4.4 is 88; and the reference
    quantities themselves miss the factor 20 by one unit in the last place. *)
Lemma exposure_entries_are_rounded_texts :
  (0 <? 0.4385) = true
  ∧ calculate_exposure_safety 0.4385 !! "public_safety"%string
    = Some "Safe for 285 days (8hr/day)"%string
  ∧ calculate_exposure_safety 0.4386 !! "public_safety"%string
    = Some "Safe for 285 days (8hr/day)"%string
  ∧ (Spec.daysToPublicLimit (Spec.exposure 0.4385)
     =? Spec.daysToPublicLimit (Spec.exposure 0.4386)) = false
  ∧ ¬ (∃ stored : string → float,
         ∀ r, (0 <? r) = true →
              stored <$> (calculate_exposure_safety r !! "public_safety"%string)
              = Some (Spec.daysToPublicLimit (Spec.exposure r)))
  ∧ calculate_exposure_safety 0.4385 !! "percent_of_public_limit"%string
    = Some "87.7%"%string
  ∧ calculate_exposure_safety 0.4385 !! "percent_of_worker_limit"%string
    = Some "4.4%"%string
  ∧ (Spec.percentOfPublicLimit (Spec.exposure 0.4385)
     =? Spec.percentOfWorkerLimit (Spec.exposure 0.4385) * 20) = false.
Proof.
  split; [reflexivity|].
  split; [vm_compute; reflexivity|].
  split; [vm_compute; reflexivity|].
  split; [vm_compute; reflexivity|].
  split; [|by repeat split; vm_compute].
  intros [stored H].
  pose proof (H 0.4385 eq_refl) as H1. pose proof (H 0.4386 eq_refl) as H2.
  vm_compute in H1, H2. rewrite H1 in H2. discriminate H2.
Qed.

(** C4, as the code has it. At or below zero the function returns the
    dictionary with the single entry [status]; above zero it returns five
    texts, which are the reference quantities of section 4.2 printed with no
    decimal (days, annual dose) or one decimal (percentages). *)
Theorem exposure_estimate_texts (doseRate : float) :
  ((doseRate <=? 0) = true →
     estimate doseRate = Return {[ "status" := "No radiation detected" ]}%string)
  ∧ ((0 <? doseRate) = true →
     let e := Spec.exposure doseRate in
     estimate doseRate = Return (list_to_map [
       ("public_safety",
        "Safe for " ++ Py.format_f 0 (Spec.daysToPublicLimit e) ++ " days (8hr/day)");
       ("worker_safety",
        "Safe for " ++ Py.format_f 0 (Spec.daysToWorkerLimit e) ++ " days (8hr/day)");
       ("annual_dose_estimate",
        Py.format_f 0 (Spec.annualDose8hr e) ++ " μSv/year");
       ("percent_of_public_limit",
        Py.format_f 1 (Spec.percentOfPublicLimit e) ++ "%");
       ("percent_of_worker_limit",
        Py.format_f 1 (Spec.percentOfWorkerLimit e) ++ "%") ])%string).
Proof.
  unfold estimate. split.
  - intros H. by rewrite exposure_status_entry.
  - intros H. cbv zeta. unfold calculate_exposure_safety.
    destruct (doseRate <=? 0) eqn:Hle.
    + rewrite (leb_not_ltb _ _ Hle) in H. discriminate H.
    + reflexivity.
Qed.

Lemma exposure_estimate_texts_witness :
  (0 <=? 0) = true
  ∧ estimate 0 = Return {[ "status" := "No radiation detected" ]}%string
  ∧ (0 <? 0.4385) = true
  ∧ estimate 0.4385 = Return (list_to_map [
       ("public_safety", "Safe for 285 days (8hr/day)");
       ("worker_safety", "Safe for 5701 days (8hr/day)");
       ("annual_dose_estimate", "877 μSv/year");
       ("percent_of_public_limit", "87.7%");
       ("percent_of_worker_limit", "4.4%") ])%string.
Proof.
  split; [reflexivity|].
  split; [apply (exposure_estimate_texts 0); reflexivity|].
  split; [reflexivity|].
  destruct (exposure_estimate_texts 0.4385) as [_ H].
  rewrite (H eq_refl). vm_compute. reflexivity.
Defined.


End Exposure.

(* ===================================================================== *)
(** ** The report's loop in closed form *)
(* ===================================================================== *)

Section ClosedForm.

Local Open Scope float_scope.

(** A level is one of the three hotspot levels exactly when the dose rate
    is not below 0.3: at or above it, or NaN. *)
Lemma hot_level_iff (x : float) :
  level (assess_risk_corrected x) ∈ ["MODERATE"; "HIGH"; "SEVERE"]%string
  ↔ (x <? 0.3) = false.
Proof.
  assert (∀ l : string, l ∈ ["SAFE"; "LOW"]%string →
                        l ∈ ["MODERATE"; "HIGH"; "SEVERE"]%string → False) as Hcold.
  { intros l Hl Hhot.
    repeat (apply elem_of_cons in Hl as [->|Hl]); [..|by apply elem_of_nil in Hl];
      repeat (apply elem_of_cons in Hhot as [Heq|Hhot]; [discriminate Heq|]);
      by apply elem_of_nil in Hhot. }
  destruct (assess_risk_corrected_cases x)
    as [[H1 ->]|[(H1 & H2 & ->)|[(H1 & H2 & ->)|[(H1 & H2 & ->)|[H1 ->]]]]];
    simpl; split; intros H.
  - exfalso. apply (Hcold "SAFE"%string); [apply list_elem_of_here|exact H].
  - rewrite (ltb_trans x 0.15 0.3 H1 eq_refl) in H. discriminate H.
  - exfalso. apply (Hcold "LOW"%string);
      [apply list_elem_of_further, list_elem_of_here|exact H].
  - rewrite H2 in H. discriminate H.
  - exact H1.
  - apply list_elem_of_here.
  - destruct (x <? 0.3) eqn:E; [|reflexivity].
    rewrite (ltb_trans x 0.3 0.5 E eq_refl) in H1. discriminate H1.
  - apply list_elem_of_further, list_elem_of_here.
  - destruct (x <? 0.3) eqn:E; [|reflexivity].
    rewrite (ltb_trans x 0.3 1.0 E eq_refl) in H1. discriminate H1.
  - do 2 apply list_elem_of_further. apply list_elem_of_here.
Qed.

(** The loop appends the hotspots of its rows to the list it was given. *)
Lemma scan_rows_hotspots (rows : list row) :
  ∀ (idx : nat) (rc rc' : gmap string nat) (hs hs' : list hotspot),
    scan_rows idx rows rc hs = Return (rc', hs') →
    hs' = (hs ++ hotspots_from idx rows)%list.
Proof.
  induction rows as [|r rest IH]; intros idx rc rc' hs hs' Hrun; simpl in Hrun.
  - injection Hrun as _ <-. simpl. by rewrite app_nil_r.
  - unfold increment, Py.getitem in Hrun.
    destruct (rc !! level _) as [n|]; cbn in Hrun; [|discriminate Hrun].
    rewrite (IH _ _ _ _ _ Hrun). simpl.
    destruct (bool_decide _); simpl; [by rewrite <- app_assoc|reflexivity].
Qed.

(** The statistics panel runs the same tally as the report. *)
Lemma scan_rows_tally (rows : list row) :
  ∀ (idx : nat) (rc rc' : gmap string nat) (hs hs' : list hotspot),
    scan_rows idx rows rc hs = Return (rc', hs') →
    count_risk_levels rows rc = Return rc'.
Proof.
  induction rows as [|r rest IH]; intros idx rc rc' hs hs' Hrun; simpl in *.
  - by injection Hrun as <- _.
  - destruct (increment rc _) as [rc1|e]; cbn in *; [|discriminate Hrun].
    by eapply IH.
Qed.

Lemma distribution_lookup (rows : list row) (l : string) :
  l ∈ Spec.levels → distribution rows !! l = Some (count_level l rows).
Proof.
  unfold Spec.levels. intros Hl.
  repeat (apply elem_of_cons in Hl as [->|Hl]); [..|by apply elem_of_nil in Hl];
    reflexivity.
Qed.

Lemma distribution_dom (rows : list row) :
  dom (distribution rows) = list_to_set Spec.levels.
Proof. unfold distribution. rewrite dom_list_to_map_L. reflexivity. Qed.

(** What the first half of [generate_risk_report] computes, without the
    loop: the counters are the numbers of rows per level and the hotspots
    are the rows at the three upper levels, numbered from 1. *)
Lemma assess_data_closed_form (d : RadiationData) :
  assess_data d = Return {|
    n_points := length (data_points d);
    stats_of := (get_dataframe d).2;
    risk_counts := distribution (data_points d);
    hotspots := hotspots_from 0 (data_points d);
    risk_index := compute_risk_index (get_dataframe d).2;
    overall_risk := (overall_assessment (compute_risk_index (get_dataframe d).2)).1;
    recommendations := (overall_assessment (compute_risk_index (get_dataframe d).2)).2
  |}.
Proof.
  destruct (assess_data_holds d) as (a & Ha & Hn & Hrc & Hcount & _).
  destruct (assess_data_index d a Ha) as (Hst & Hidx & Hlvl & Hrecs).
  rewrite Ha. f_equal. destruct a as [n st rc hs idx lvl recs]. simpl in *.
  subst n st idx lvl recs. f_equal.
  - apply map_eq. intros l. destruct (decide (l ∈ Spec.levels)) as [Hl|Hl].
    + by rewrite Hcount, distribution_lookup.
    + destruct Hrc as (? & ? & ? & ? & ? & _ & _ & _ & _ & _ & Hdom & _).
      rewrite (proj1 (not_elem_of_dom rc l)), (proj1 (not_elem_of_dom _ l)); try done.
      * rewrite distribution_dom. by rewrite elem_of_list_to_set.
      * rewrite Hdom. by rewrite elem_of_list_to_set.
  - unfold assess_data, get_dataframe in Ha.
    destruct (scan_rows 0 (data_points d) risk_counts_init []) as [[rc0 hs0]|e] eqn:E;
      cbn in Ha; [|discriminate Ha].
    destruct (overall_assessment _). injection Ha as _ <-.
    by rewrite (scan_rows_hotspots _ _ _ _ _ _ E).
Qed.

End ClosedForm.

(* ===================================================================== *)
(** ** Further properties: hotspots and the distribution *)
(* ===================================================================== *)

Section Hotspots.

Local Open Scope float_scope.

Lemma hotspots_from_elem (rows : list row) :
  ∀ (idx : nat) (h : hotspot),
    h ∈ hotspots_from idx rows
    ↔ ∃ i r, rows !! i = Some r
             ∧ (Radiation_uSv_h r <? 0.3) = false
             ∧ h = {| point := idx + i + 1;
                      radiation := Radiation_uSv_h r;
                      hotspot_risk := level (assess_risk_corrected (Radiation_uSv_h r)) |}.
Proof.
  induction rows as [|r rest IH]; intros idx h; simpl.
  - split; [by intros ?%elem_of_nil|]. by intros (i & r & Hi & _).
  - rewrite elem_of_app, IH. split.
    + intros [Hh|(i & r' & Hi & Hr & ->)].
      * case_bool_decide as Hhot; [|by apply elem_of_nil in Hh].
        apply list_elem_of_singleton in Hh as ->. exists 0%nat, r.
        split; [reflexivity|]. split; [by apply hot_level_iff|].
        f_equal. lia.
      * exists (S i), r'. split; [exact Hi|]. split; [exact Hr|]. f_equal. lia.
    + intros ([|i] & r' & Hi & Hr & ->); simpl in Hi.
      * injection Hi as ->. left.
        rewrite bool_decide_eq_true_2 by by apply hot_level_iff.
        apply list_elem_of_singleton. f_equal. lia.
      * right. exists i, r'. split; [exact Hi|]. split; [exact Hr|]. f_equal. lia.
Qed.

Lemma hotspots_from_points (rows : list row) :
  ∀ idx, Forall (λ h, idx < point h ≤ idx + length rows)%nat (hotspots_from idx rows).
Proof.
  intros idx. apply Forall_forall. intros h (i & r & Hi & _ & ->)%hotspots_from_elem.
  apply lookup_lt_Some in Hi. simpl. lia.
Qed.

Lemma hotspots_from_sorted (rows : list row) :
  ∀ idx, StronglySorted (λ h1 h2, point h1 < point h2)%nat (hotspots_from idx rows).
Proof.
  induction rows as [|r rest IH]; intros idx; simpl; [constructor|].
  destruct (bool_decide _); simpl; [|apply IH].
  constructor; [apply IH|].
  eapply Forall_impl; [apply hotspots_from_points|]. simpl. intros h Hh. lia.
Qed.

Lemma hotspots_from_length (rows : list row) :
  ∀ idx, length (hotspots_from idx rows)
         = (count_level "MODERATE" rows + count_level "HIGH" rows
            + count_level "SEVERE" rows)%nat.
Proof.
  unfold count_level.
  induction rows as [|r rest IH]; intros idx; simpl; [reflexivity|].
  rewrite length_app, (IH (S idx)).
  destruct (assess_risk_corrected_cases (Radiation_uSv_h r))
    as [[_ ->]|[(_ & _ & ->)|[(_ & _ & ->)|[(_ & _ & ->)|[_ ->]]]]];
    vm_compute bool_decide; simpl; lia.
Qed.

Lemma count_level_app (l : string) (rows1 rows2 : list row) :
  count_level l (rows1 ++ rows2) = (count_level l rows1 + count_level l rows2)%nat.
Proof. unfold count_level. by rewrite List.filter_app, length_app. Qed.

Lemma count_level_Permutation (l : string) (rows1 rows2 : list row) :
  rows1 ≡ₚ rows2 → count_level l rows1 = count_level l rows2.
Proof.
  unfold count_level. induction 1 as [|r ?? _ IH|r1 r2 ?|??? _ IH1 _ IH2]; simpl.
  - reflexivity.
  - destruct (bool_decide _); simpl; by rewrite IH.
  - by do 2 destruct (bool_decide _).
  - by rewrite IH1.
Qed.

Lemma hotspots_from_app (rows1 rows2 : list row) :
  ∀ idx, hotspots_from idx (rows1 ++ rows2)
         = (hotspots_from idx rows1 ++ hotspots_from (idx + length rows1) rows2)%list.
Proof.
  induction rows1 as [|r rest IH]; intros idx; simpl.
  - by rewrite Nat.add_0_r.
  - rewrite (IH (S idx)), <- app_assoc. do 3 f_equal. lia.
Qed.

Lemma hotspots_from_shift (rows : list row) :
  ∀ idx k, hotspots_from (idx + k) rows
           = (λ h, {| point := point h + k;
                      radiation := radiation h;
                      hotspot_risk := hotspot_risk h |}) <$> hotspots_from idx rows.
Proof.
  induction rows as [|r rest IH]; intros idx k; simpl; [reflexivity|].
  rewrite fmap_app, <- (IH (S idx) k). f_equal.
  destruct (bool_decide _); simpl; [|reflexivity]. do 2 f_equal. lia.
Qed.

(** X1. The hotspots of the report are exactly the measurements whose dose
    rate is not below 0.3 (at or above it, or NaN), each with its 1-based
    position in the dataset, its dose rate and its level. *)
Theorem hotspots_are_the_readings_from_0_3 (d : RadiationData) :
  ∃ a, assess_data d = Return a
       ∧ ∀ h, h ∈ hotspots a
              ↔ ∃ i r, data_points d !! i = Some r
                       ∧ (Radiation_uSv_h r <? 0.3) = false
                       ∧ h = {| point := i + 1;
                                radiation := Radiation_uSv_h r;
                                hotspot_risk :=
                                  level (assess_risk_corrected (Radiation_uSv_h r)) |}.
Proof.
  eexists. split; [apply assess_data_closed_form|]. simpl.
  intros h. apply hotspots_from_elem.
Qed.

(** X2. The hotspots are listed in the order of the dataset: their point
    numbers go strictly up and lie between 1 and the number of samples. *)
Theorem hotspot_points_increase (d : RadiationData) :
  ∃ a, assess_data d = Return a
       ∧ StronglySorted (λ h1 h2, point h1 < point h2)%nat (hotspots a)
       ∧ Forall (λ h, 1 ≤ point h ≤ n_points a)%nat (hotspots a).
Proof.
  eexists. split; [apply assess_data_closed_form|]. simpl.
  split; [apply hotspots_from_sorted|].
  eapply Forall_impl; [apply hotspots_from_points|]. simpl. intros h Hh. lia.
Qed.

(** X3. The number of hotspots is the sum of the MODERATE, HIGH and SEVERE
    counts of the risk distribution. *)
Theorem hotspot_count_matches_distribution (d : RadiationData) :
  ∃ a moderate high severe,
    assess_data d = Return a
    ∧ risk_counts a !! "MODERATE"%string = Some moderate
    ∧ risk_counts a !! "HIGH"%string = Some high
    ∧ risk_counts a !! "SEVERE"%string = Some severe
    ∧ length (hotspots a) = (moderate + high + severe)%nat.
Proof.
  eexists _, _, _, _. split; [apply assess_data_closed_form|]. simpl.
  repeat split; [reflexivity..|]. apply hotspots_from_length.
Qed.

(** X4. The statistics panel of the map and the report count the same
    distribution: the tally of [add_statistics_panel] is the mapping the
    report computes. *)
Theorem statistics_panel_agrees_with_report (d : RadiationData) :
  ∃ a, assess_data d = Return a
       ∧ add_statistics_panel d = Return (risk_counts a).
Proof.
  destruct (assess_data_holds d) as (a & Ha & _). exists a. split; [exact Ha|].
  unfold assess_data, add_statistics_panel, get_dataframe in *.
  destruct (scan_rows 0 (data_points d) risk_counts_init []) as [[rc hs]|e] eqn:E;
    cbn in Ha; [|discriminate Ha].
  destruct (overall_assessment _). injection Ha as <-. simpl.
  by eapply scan_rows_tally.
Qed.

(** X5. The distribution does not depend on the order of the samples: two
    datasets with the same measurements in any order get the same counts
    and the same number of hotspots. *)
Theorem distribution_ignores_order (d1 d2 : RadiationData) :
  data_points d1 ≡ₚ data_points d2 →
  ∃ a1 a2,
    assess_data d1 = Return a1 ∧ assess_data d2 = Return a2
    ∧ risk_counts a1 = risk_counts a2
    ∧ length (hotspots a1) = length (hotspots a2).
Proof.
  intros Hperm. eexists _, _.
  split; [apply assess_data_closed_form|]. split; [apply assess_data_closed_form|].
  simpl. split.
  - unfold distribution. f_equal. apply list_fmap_ext. intros _ l _.
    f_equal. by apply count_level_Permutation.
  - rewrite !hotspots_from_length.
    by rewrite !(count_level_Permutation _ _ _ Hperm).
Qed.

Lemma distribution_ignores_order_witness :
  ∃ a1 a2,
    assess_data sample_data = Return a1
    ∧ assess_data {| data_points := rev (data_points sample_data) |} = Return a2
    ∧ risk_counts a1 = risk_counts a2
    ∧ length (hotspots a1) = length (hotspots a2).
Proof.
  apply (distribution_ignores_order
           sample_data {| data_points := rev (data_points sample_data) |}).
  simpl. apply Permutation_rev.
Defined.

(** X6. Two surveys put one after the other: every count is the sum of the
    counts of the parts, and the hotspots are those of the first part
    followed by those of the second, renumbered after the first part. *)
Theorem report_of_appended_datasets (d1 d2 d : RadiationData) :
  data_points d = (data_points d1 ++ data_points d2)%list →
  ∃ a1 a2 a,
    assess_data d1 = Return a1 ∧ assess_data d2 = Return a2
    ∧ assess_data d = Return a
    ∧ (∀ l n1 n2, risk_counts a1 !! l = Some n1 → risk_counts a2 !! l = Some n2 →
                  risk_counts a !! l = Some (n1 + n2)%nat)
    ∧ hotspots a
      = (hotspots a1
         ++ ((λ h, {| point := point h + n_points a1;
                      radiation := radiation h;
                      hotspot_risk := hotspot_risk h |}) <$> hotspots a2))%list.
Proof.
  intros Hd. eexists _, _, _.
  split; [apply assess_data_closed_form|]. split; [apply assess_data_closed_form|].
  split; [apply assess_data_closed_form|]. simpl. rewrite Hd. split.
  - intros l n1 n2 H1 H2.
    assert (l ∈ Spec.levels) as Hl.
    { apply (elem_of_list_to_set (C := gset string)).
      rewrite <- (distribution_dom (data_points d1)). apply elem_of_dom. by eexists. }
    rewrite distribution_lookup in H1, H2 |- * by exact Hl.
    injection H1 as <-. injection H2 as <-. by rewrite count_level_app.
  - rewrite hotspots_from_app. f_equal. apply (hotspots_from_shift _ 0).
Qed.

Lemma report_of_appended_datasets_witness :
  ∃ a1 a2 a,
    assess_data sample_data = Return a1 ∧ assess_data scenario_data = Return a2
    ∧ assess_data {| data_points := data_points sample_data
                                    ++ data_points scenario_data |} = Return a
    ∧ (∀ l n1 n2, risk_counts a1 !! l = Some n1 → risk_counts a2 !! l = Some n2 →
                  risk_counts a !! l = Some (n1 + n2)%nat)
    ∧ hotspots a
      = (hotspots a1
         ++ ((λ h, {| point := point h + n_points a1;
                      radiation := radiation h;
                      hotspot_risk := hotspot_risk h |}) <$> hotspots a2))%list.
Proof.
  apply (report_of_appended_datasets sample_data scenario_data
           {| data_points := data_points sample_data ++ data_points scenario_data |}).
  reflexivity.
Defined.

End Hotspots.

(* ===================================================================== *)
(** ** Further properties: the map overlays *)
(* ===================================================================== *)

Section Overlays.

Local Open Scope float_scope.

(** The circle of a row: its radius is ten times the ordinal of its level,
    counted from one. *)
Lemma risk_zone_circle (r : row) :
  ∃ k, Spec.rank (level (assess_risk_corrected (Radiation_uSv_h r))) = Some k
       ∧ risk_zone r = Return {|
           circle_location := [Latitude r; Longitude r];
           radius := 10 * (Z.of_nat k + 1);
           circle_color := color (assess_risk_corrected (Radiation_uSv_h r));
           popup := ("<b>" ++ level (assess_risk_corrected (Radiation_uSv_h r))
                     ++ " Risk Zone</b><br>"
                     ++ description (assess_risk_corrected (Radiation_uSv_h r)))%string |}.
Proof.
  unfold risk_zone, Py.getitem.
  destruct (assess_risk_corrected_cases (Radiation_uSv_h r))
    as [[_ ->]|[(_ & _ & ->)|[(_ & _ & ->)|[(_ & _ & ->)|[_ ->]]]]];
    cbn; eexists; split; reflexivity.
Qed.



(** X8. A measurement with a higher dose rate never gets a smaller risk
    zone. *)
Theorem zone_radius_monotone (r1 r2 : row) :
  (Radiation_uSv_h r1 <? Radiation_uSv_h r2) = true →
  ∃ c1 c2, risk_zone r1 = Return c1 ∧ risk_zone r2 = Return c2
           ∧ (radius c1 <= radius c2)%Z.
Proof.
  intros Hlt.
  destruct (assess_risk_corrected_monotone _ _ Hlt) as (k1 & k2 & Hk1 & Hk2 & Hle).
  destruct (risk_zone_circle r1) as (k1' & Hk1' & ->).
  destruct (risk_zone_circle r2) as (k2' & Hk2' & ->).
  rewrite Hk1 in Hk1'. rewrite Hk2 in Hk2'. injection Hk1' as <-. injection Hk2' as <-.
  eexists _, _. split; [reflexivity|]. split; [reflexivity|]. simpl. lia.
Qed.

Lemma zone_radius_monotone_witness :
  ∃ c1 c2, risk_zone (Row 90.358 23.838 0.0) = Return c1
           ∧ risk_zone (Row 90.357 23.838 0.4385) = Return c2
           ∧ (radius c1 <= radius c2)%Z.
Proof.
  apply (zone_radius_monotone (Row 90.358 23.838 0.0) (Row 90.357 23.838 0.4385)).
  reflexivity.
Defined.

Lemma nan_div_r (x y : float) : is_nan y = true → is_nan (x / y) = true.
Proof.
  rewrite !is_nan_spec, div_spec. intros ->.
  by destruct (Prim2SF x) as [[]|[]| |[] m e].
Qed.

Lemma nan_div_l (x y : float) : is_nan x = true → is_nan (x / y) = true.
Proof. rewrite !is_nan_spec, div_spec. by intros ->. Qed.

Lemma format_f_nan (digits : nat) (x : float) :
  is_nan x = true → Py.format_f digits x = "nan"%string.
Proof. rewrite is_nan_spec. unfold Py.format_f. by intros ->. Qed.

(** X9. The exposure dictionary has one of two shapes and never a mix: the
    single entry [status] when the dose rate is at or below zero, in which
    case the measurement is classified SAFE, and the five texts otherwise;
    [status] is in the dictionary exactly when the dose rate is at or below
    zero. For a NaN dose rate it has the five texts, each printing nan. *)
Theorem exposure_dictionary_shape (x : float) :
  Py.contains "status" (calculate_exposure_safety x) = (x <=? 0)
  ∧ dom (calculate_exposure_safety x)
    = (if x <=? 0 then {[ "status"%string ]}
       else {[ "public_safety"; "worker_safety"; "annual_dose_estimate";
               "percent_of_public_limit"; "percent_of_worker_limit" ]}%string)
  ∧ ((x <=? 0) = true → assess_risk_corrected x = risk_SAFE)
  ∧ (is_nan x = true →
     calculate_exposure_safety x = list_to_map [
       ("public_safety", "Safe for nan days (8hr/day)");
       ("worker_safety", "Safe for nan days (8hr/day)");
       ("annual_dose_estimate", "nan μSv/year");
       ("percent_of_public_limit", "nan%");
       ("percent_of_worker_limit", "nan%") ]%string).
Proof.
  split; [|split; [|split]].
  - unfold calculate_exposure_safety. by destruct (x <=? 0).
  - unfold calculate_exposure_safety. destruct (x <=? 0).
    + by rewrite dom_singleton_L.
    + rewrite dom_list_to_map_L. simpl. set_solver.
  - intros Hle. unfold assess_risk_corrected.
    by rewrite (leb_ltb_trans x 0 0.15 Hle eq_refl).
  - intros Hnan. unfold calculate_exposure_safety.
    rewrite (nan_leb_l x 0 Hnan).
    rewrite !format_f_nan; [reflexivity|..];
      let rec propagate :=
        first [ exact Hnan
              | apply nan_div_l; propagate
              | apply nan_div_r; propagate
              | apply nan_mul_l; propagate ] in
      propagate.
Qed.

(** X10. The safety lines of a popup never miss an entry of the exposure
    dictionary: at or below zero they are the status line, and otherwise
    they are the two safety texts of the dictionary. *)
Theorem safety_info_html_follows_the_dictionary (x : float) :
  ((x <=? 0) = true
   ∧ safety_info_html x
     = Return "<p><b>Safety Info:</b> No radiation detected</p>"%string)
  ∨ ((x <=? 0) = false
     ∧ ∃ public_safety worker_safety,
         calculate_exposure_safety x !! "public_safety"%string = Some public_safety
         ∧ calculate_exposure_safety x !! "worker_safety"%string = Some worker_safety
         ∧ safety_info_html x
           = Return (nl
               ++ "                <p><b>Public Safety:</b> " ++ public_safety
               ++ "</p>" ++ nl
               ++ "                <p><b>Worker Safety:</b> " ++ worker_safety
               ++ "</p>" ++ nl
               ++ "                ")%string).
Proof.
  destruct (x <=? 0) eqn:Hle; [left|right]; (split; [reflexivity|]).
  - unfold safety_info_html. by rewrite (exposure_status_entry _ Hle).
  - destruct (exposure_safety_entries _ Hle) as (p & w & Hp & Hw).
    exists p, w. split; [exact Hp|]. split; [exact Hw|].
    unfold safety_info_html, Py.getitem. rewrite Hp, Hw.
    replace (Py.contains "status" (calculate_exposure_safety x)) with false;
      [reflexivity|].
    unfold calculate_exposure_safety. by rewrite Hle.
Qed.



End Overlays.

(* ===================================================================== *)
(** ** Further properties: the index and the two threshold chains *)
(* ===================================================================== *)

Section IndexAndThresholds.

Local Open Scope float_scope.

Lemma dropna_all_nan (xs : list float) :
  Forall (λ x, is_nan x = true) xs → Series.dropna xs = [].
Proof.
  induction 1 as [|x xs Hx _ IH]; simpl; [reflexivity|]. by rewrite Hx.
Qed.

Lemma count_level_uniform (l l0 : string) (rows : list row) :
  Forall (λ r, level (assess_risk_corrected (Radiation_uSv_h r)) = l0) rows →
  count_level l rows = if bool_decide (l0 = l) then length rows else 0%nat.
Proof.
  unfold count_level.
  induction 1 as [|r rows Hr _ IH]; simpl; [by destruct (bool_decide _)|].
  rewrite Hr. destruct (bool_decide (l0 = l)); simpl; by rewrite IH.
Qed.

Lemma all_nan_counts (rows : list row) :
  Forall (λ r, is_nan (Radiation_uSv_h r) = true) rows →
  count_level "MODERATE" rows = 0%nat
  ∧ count_level "HIGH" rows = 0%nat
  ∧ count_level "SEVERE" rows = length rows.
Proof.
  intros Hnan.
  assert (Forall (λ r, level (assess_risk_corrected (Radiation_uSv_h r))
                       = "SEVERE"%string) rows) as Hsev.
  { eapply Forall_impl; [exact Hnan|]. simpl. intros r Hr.
    unfold assess_risk_corrected. by rewrite !(nan_ltb_l _ _ Hr). }
  by rewrite !(count_level_uniform _ _ _ Hsev).
Qed.

(** X12. For every dataset of dose rates that are not negative, the empty
    one included, the index of the report lies between 0 and 100. *)
Theorem report_index_within_0_100 (d : RadiationData) :
  Forall (λ r, (0 <=? Radiation_uSv_h r) = true) (data_points d) →
  ∃ a, assess_data d = Return a
       ∧ (0 <=? risk_index a) = true
       ∧ (risk_index a <=? 100) = true.
Proof.
  intros Hd. eexists. split; [apply assess_data_closed_form|]. simpl.
  by apply dataset_index_bounds.
Qed.

Lemma report_index_within_0_100_witness :
  ∃ a, assess_data sample_data = Return a
       ∧ (0 <=? risk_index a) = true
       ∧ (risk_index a <=? 100) = true.
Proof.
  apply (report_index_within_0_100 sample_data). simpl.
  repeat (constructor; [reflexivity|]). constructor.
Defined.

(** X13. A dataset without a single number, empty or all NaN, is reported
    at index 100 and level SEVERE with the four emergency recommendations;
    every NaN measurement is counted SEVERE and listed as a hotspot. *)
Theorem report_without_a_number (d : RadiationData) :
  Forall (λ r, is_nan (Radiation_uSv_h r) = true) (data_points d) →
  ∃ a, assess_data d = Return a
       ∧ risk_index a = 100
       ∧ overall_risk a = "SEVERE"%string
       ∧ recommendations a
         = [ "IMMEDIATE AREA RESTRICTION";
             "Contact nuclear regulatory body";
             "Deploy emergency response";
             "Evacuate non-essential personnel" ]%string
       ∧ risk_counts a !! "SEVERE"%string = Some (length (data_points d))
       ∧ length (hotspots a) = length (data_points d).
Proof.
  intros Hd. eexists. split; [apply assess_data_closed_form|]. simpl.
  assert (compute_risk_index
            {| mean := Series.mean (Radiation_uSv_h <$> data_points d);
               max := Series.max (Radiation_uSv_h <$> data_points d);
               min := Series.min (Radiation_uSv_h <$> data_points d) |} = 100) as ->.
  { apply compute_risk_index_nan. left. simpl. unfold Series.max.
    rewrite dropna_all_nan; [reflexivity|]. by apply Forall_fmap. }
  destruct (all_nan_counts _ Hd) as (Hm & Hh & Hs).
  split; [reflexivity|]. split; [reflexivity|]. split; [reflexivity|].
  split.
  - rewrite distribution_lookup; [by rewrite Hs|].
    unfold Spec.levels. do 4 apply list_elem_of_further. apply list_elem_of_here.
  - rewrite hotspots_from_length, Hm, Hh, Hs. reflexivity.
Qed.

Lemma report_without_a_number_witness :
  ∃ a, assess_data {| data_points := [Row 90.357 23.838 nan] |} = Return a
       ∧ risk_index a = 100
       ∧ overall_risk a = "SEVERE"%string
       ∧ recommendations a
         = [ "IMMEDIATE AREA RESTRICTION";
             "Contact nuclear regulatory body";
             "Deploy emergency response";
             "Evacuate non-essential personnel" ]%string
       ∧ risk_counts a !! "SEVERE"%string = Some 1%nat
       ∧ length (hotspots a) = 1%nat.
Proof.
  apply (report_without_a_number {| data_points := [Row 90.357 23.838 nan] |}).
  simpl. constructor; [reflexivity|]. constructor.
Defined.

(** X14. The level read backwards: a measurement that is a number and is
    classified at a level lies in the range of that level in the table of
    thresholds, negative dose rates included (they lie in the first
    range). *)
Theorem level_gives_the_range (x : float) (rng : Spec.range) (lvl act : string) :
  defined x →
  (rng, lvl, act) ∈ Spec.table_4_1 →
  level (assess_risk_corrected x) = lvl →
  Spec.in_range rng x = true.
Proof.
  intros Hd Hin Hlvl. unfold Spec.table_4_1 in Hin.
  repeat (apply elem_of_cons in Hin as [Heq|Hin]; [injection Heq as -> -> ->|]);
    [..|by apply elem_of_nil in Hin];
    destruct (assess_risk_corrected_cases x)
      as [[H1 E]|[(H1 & H2 & E)|[(H1 & H2 & E)|[(H1 & H2 & E)|[H1 E]]]]];
    rewrite E in Hlvl; try discriminate Hlvl; simpl.
  - exact H1.
  - by rewrite (not_ltb_leb x 0.15 Hd eq_refl H1), H2.
  - by rewrite (not_ltb_leb x 0.3 Hd eq_refl H1), H2.
  - by rewrite (not_ltb_leb x 0.5 Hd eq_refl H1), H2.
  - by rewrite (not_ltb_leb x 1.0 Hd eq_refl H1).
Qed.

Lemma level_gives_the_range_witness :
  Spec.in_range (Spec.Below 0.15) (-1) = true.
Proof.
  apply (level_gives_the_range (-1) (Spec.Below 0.15) "SAFE" "No restrictions needed");
    [reflexivity|apply list_elem_of_here|reflexivity].
Defined.

(** X15. The overall level read backwards: whatever the statistics, NaN
    included, the index lies in the range of the overall level in the
    thresholds of the index. *)
Theorem overall_level_gives_the_range
    (stats : statistics) (rng : Spec.range) (lvl : string) :
  (rng, lvl) ∈ Spec.table_4_3 →
  (overall_assessment (compute_risk_index stats)).1 = lvl →
  Spec.in_range rng (compute_risk_index stats) = true.
Proof.
  intros Hin Hlvl. pose proof (compute_risk_index_defined stats) as Hd.
  unfold Spec.table_4_3 in Hin.
  repeat (apply elem_of_cons in Hin as [Heq|Hin]; [injection Heq as -> ->|]);
    [..|by apply elem_of_nil in Hin];
    destruct (overall_assessment_cases (compute_risk_index stats))
      as [[H1 E]|[(H1 & H2 & E)|[(H1 & H2 & E)|[(H1 & H2 & E)|[H1 E]]]]];
    rewrite E in Hlvl; try discriminate Hlvl; simpl.
  - exact H1.
  - by rewrite (not_ltb_leb _ 30 Hd eq_refl H1), H2.
  - by rewrite (not_ltb_leb _ 50 Hd eq_refl H1), H2.
  - by rewrite (not_ltb_leb _ 70 Hd eq_refl H1), H2.
  - by rewrite (not_ltb_leb _ 90 Hd eq_refl H1).
Qed.

Lemma overall_level_gives_the_range_witness :
  Spec.in_range (Spec.AtLeast 90)
    (compute_risk_index {| mean := nan; max := nan; min := nan |}) = true.
Proof.
  apply (overall_level_gives_the_range
           {| mean := nan; max := nan; min := nan |} (Spec.AtLeast 90) "SEVERE");
    [do 4 apply list_elem_of_further; apply list_elem_of_here|reflexivity].
Defined.

End IndexAndThresholds.
